(** * everyday-news: the index generator [update.py]

    A shallow embedding of the script that walks the tree of news articles,
    extracts title, date and summary of every markdown file, groups the
    articles by language and media, and splices two generated HTML fragments
    into [index_template.html] to produce [index.html].

    Modelling conventions.
    - Text is [string] over the ASCII range; on that range the character
      classes of Python's [re] ([\s], [\d], [.]) and [str.upper] are the
      ones defined below.
    - A Python exception is a value of [exn]; code that can raise returns a
      [result].  [try ... except Exception] is a [match] on that result.
    - The file system is a tree of named entries; [print] appends an event
      to the log of the run.
    - Mutable objects that are shared (the structure dictionary and the
      article lists inside it) are threaded explicitly: a function that
      mutates its argument returns the new value next to its result. *)

From Stdlib Require Import Bool Arith ZArith Lia List Ascii String.
From Stdlib Require Import Permutation Sorted DecimalString.
From Stdlib Require Import DecimalNat.
Import ListNotations.

Local Open Scope list_scope.
Local Open Scope string_scope.

(* ================================================================== *)
(** ** Python strings *)

Module PyStr.

(** Line feed and the double quote, which cannot be typed inside a literal. *)
Definition LF : ascii := "010"%char.
Definition DQ : ascii := "034"%char.
Definition lf : string := String LF EmptyString.
Definition dq : string := String DQ EmptyString.

Definition is_lower (c : ascii) : bool := (("a" <=? c) && (c <=? "z"))%char.
Definition is_upper (c : ascii) : bool := (("A" <=? c) && (c <=? "Z"))%char.
Definition is_digit (c : ascii) : bool := (("0" <=? c) && (c <=? "9"))%char.
Definition is_octdigit (c : ascii) : bool := (("0" <=? c) && (c <=? "7"))%char.
Definition is_letter (c : ascii) : bool := is_lower c || is_upper c.

(** [str.isspace] on one character: TAB, LF, VT, FF, CR, the four
    separators 0x1c-0x1f and the blank. *)
Definition is_space (c : ascii) : bool :=
  let n := nat_of_ascii c in
  ((9 <=? n)%nat && (n <=? 13)%nat) || ((28 <=? n)%nat && (n <=? 31)%nat)
  || (n =? 32)%nat.

Definition upper_char (c : ascii) : ascii :=
  if is_lower c then ascii_of_nat (nat_of_ascii c - 32) else c.

(** [s.upper()] *)
Fixpoint upper (s : string) : string :=
  match s with
  | EmptyString => EmptyString
  | String c s' => String (upper_char c) (upper s')
  end.

(** [s.startswith(p)] *)
Definition startswith (p s : string) : bool := prefix p s.

(** [s.endswith(p)] *)
Definition endswith (p s : string) : bool :=
  (length p <=? length s)%nat &&
  (substring (length s - length p) (length p) s =? p).

(** [s[:n]] *)
Definition take (n : nat) (s : string) : string := substring 0 n s.

(** [s.replace(old, new)] for a non-empty [old]: every occurrence, scanning
    from the left, occurrences not overlapping.  [skip] counts the characters
    of an occurrence still to be dropped. *)
Fixpoint replace_from (old new s : string) (skip : nat) : string :=
  match s with
  | EmptyString => EmptyString
  | String c s' =>
      match skip with
      | S k => replace_from old new s' k
      | O => if prefix old s
             then new ++ replace_from old new s' (length old - 1)
             else String c (replace_from old new s' 0)
      end
  end.

Definition replace (old new s : string) : string := replace_from old new s 0.

(** [s.find(needle)]: the first position at which [needle] occurs. *)
Fixpoint find (needle s : string) : option nat :=
  if prefix needle s then Some 0
  else match s with
       | EmptyString => None
       | String _ s' => option_map S (find needle s')
       end.

(** [s.split(sep)] for a one-character separator. *)
Fixpoint split (sep : ascii) (s : string) : list string :=
  match s with
  | EmptyString => [EmptyString]
  | String c s' =>
      if (c =? sep)%char then EmptyString :: split sep s'
      else match split sep s' with
           | h :: t => String c h :: t
           | [] => [String c EmptyString]
           end
  end.

(** [sep.join(l)] *)
Definition join (sep : string) (l : list string) : string := concat sep l.

(** [str(n)] for a non-negative integer. *)
Definition of_nat (n : nat) : string := NilEmpty.string_of_uint (Nat.to_uint n).

(** [sorted(l)] on strings, by insertion; the order is the code-point order. *)
Fixpoint insert_sorted (x : string) (l : list string) : list string :=
  match l with
  | [] => [x]
  | y :: l' => if String.leb x y then x :: l else y :: insert_sorted x l'
  end.

Definition sorted (l : list string) : list string :=
  fold_right insert_sorted [] l.

(** [set(l)] keeps one copy of every element; only membership is observed. *)
Fixpoint dedup (l : list string) : list string :=
  match l with
  | [] => []
  | x :: l' => if existsb (String.eqb x) l' then dedup l' else x :: dedup l'
  end.

End PyStr.

(* ================================================================== *)
(** ** Path classifier *)

(** A Python value used in a condition: [None] and the empty string are
    false. *)
Definition truthy (o : option string) : bool :=
  match o with
  | Some (String _ _) => true
  | _ => false
  end.

(** [path_parts[i]]; the callers below index only below [len(path_parts)]. *)
Definition item (i : nat) (path_parts : list string) : string :=
  nth i path_parts EmptyString.

Definition get_language_info_from_path (path_parts : list string)
  : option string * option string :=
  if (2 <=? List.length path_parts)%nat then
    if (item 0 path_parts =? "news") && (3 <=? List.length path_parts)%nat then
      let lang_code := PyStr.upper (item 1 path_parts) in
      let media_name := PyStr.upper (item 2 path_parts) in
      (Some lang_code, Some media_name)
    else if (2 <=? List.length path_parts)%nat then
      let lang_code := PyStr.upper (item 0 path_parts) in
      let media_name := PyStr.upper (item 1 path_parts) in
      (Some lang_code, Some media_name)
    else (None, None)
  else (None, None).

(* ================================================================== *)
(** ** Regular expressions: the fragment of [re] the script uses

    Every pattern of the script is a sequence of single-character classes
    under a quantifier, capture-group brackets and line anchors.  [match_at]
    is the backtracking matcher of [re]: it explores the alternatives of each
    quantifier in priority order (greedy: longest first; lazy: shortest
    first) and returns the first complete match. *)

Module Re.

Inductive cclass : Type :=
| Lit (c : ascii)   (* the character itself *)
| Space             (* \s *)
| Digit             (* \d *)
| Dot               (* .  without re.DOTALL: anything but a line feed *)
| DotAll            (* .  under re.DOTALL *)
| NotLF.            (* [^\n] *)

Definition accepts (k : cclass) (c : ascii) : bool :=
  match k with
  | Lit a => (c =? a)%char
  | Space => PyStr.is_space c
  | Digit => PyStr.is_digit c
  | Dot => negb (c =? PyStr.LF)%char
  | DotAll => true
  | NotLF => negb (c =? PyStr.LF)%char
  end.

Inductive atom : Type :=
| One (k : cclass)        (* k   *)
| Star (k : cclass)       (* k*  *)
| LazyStar (k : cclass)   (* k*? *)
| Bol                     (* ^ under re.MULTILINE *)
| Eol                     (* $ under re.MULTILINE *)
| Open (g : nat)          (* ( of group g *)
| Close (g : nat).        (* ) of group g *)

Definition pattern := list atom.

(** [k+] and [k{n}] *)
Definition plus (k : cclass) : pattern := [One k; Star k].
Definition times (n : nat) (k : cclass) : pattern := repeat (One k) n.

(** A run of literal characters. *)
Fixpoint lits (s : string) : pattern :=
  match s with
  | EmptyString => []
  | String c s' => One (Lit c) :: lits s'
  end.

(** Number of capture groups of a pattern. *)
Definition groups (p : pattern) : nat :=
  List.length
    (filter (fun a => match a with Open _ => true | _ => false end) p).

(** Capture state: where each group was opened, and the span of each group
    that was closed. *)
Record captures : Type := {
  opened : list (nat * nat);
  spans : list (nat * (nat * nat))
}.

Definition no_captures : captures := {| opened := []; spans := [] |}.

Fixpoint assoc {A : Type} (g : nat) (l : list (nat * A)) : option A :=
  match l with
  | [] => None
  | (h, a) :: l' => if (g =? h)%nat then Some a else assoc g l'
  end.

Definition open_group (g pos : nat) (cs : captures) : captures :=
  {| opened := (g, pos) :: opened cs; spans := spans cs |}.

Definition close_group (g pos : nat) (cs : captures) : captures :=
  match assoc g (opened cs) with
  | Some b => {| opened := opened cs; spans := (g, (b, pos)) :: spans cs |}
  | None => cs
  end.

Definition at_bol (prev : option ascii) : bool :=
  match prev with
  | None => true
  | Some c => (c =? PyStr.LF)%char
  end.

Definition at_eol (s : string) : bool :=
  match s with
  | EmptyString => true
  | String c _ => (c =? PyStr.LF)%char
  end.

(** [match_at p prev pos s cs]: match [p] against [s], the part of the subject
    from position [pos] on, [prev] being the character before it.  The
    result is the end position of the match and the captures. *)
Fixpoint match_at (p : pattern) (prev : option ascii) (pos : nat) (s : string)
         (cs : captures) {struct p} : option (nat * captures) :=
  match p with
  | [] => Some (pos, cs)
  | One k :: p' =>
      match s with
      | String c s' =>
          if accepts k c then match_at p' (Some c) (S pos) s' cs else None
      | EmptyString => None
      end
  | Star k :: p' =>
      (fix star (prev : option ascii) (pos : nat) (s : string) {struct s} :=
         match s with
         | String c s' =>
             if accepts k c then
               match star (Some c) (S pos) s' with
               | Some r => Some r
               | None => match_at p' prev pos s cs
               end
             else match_at p' prev pos s cs
         | EmptyString => match_at p' prev pos s cs
         end) prev pos s
  | LazyStar k :: p' =>
      (fix lazy (prev : option ascii) (pos : nat) (s : string) {struct s} :=
         match match_at p' prev pos s cs with
         | Some r => Some r
         | None =>
             match s with
             | String c s' =>
                 if accepts k c then lazy (Some c) (S pos) s' else None
             | EmptyString => None
             end
         end) prev pos s
  | Bol :: p' => if at_bol prev then match_at p' prev pos s cs else None
  | Eol :: p' => if at_eol s then match_at p' prev pos s cs else None
  | Open g :: p' => match_at p' prev pos s (open_group g pos cs)
  | Close g :: p' => match_at p' prev pos s (close_group g pos cs)
  end.

(** A match object: the span of the whole match and of its groups. *)
Record rmatch : Type := {
  m_start : nat;
  m_end : nat;
  m_groups : list (nat * (nat * nat))
}.

(** [m.group(g)] on the subject the match was found in; a group that did not
    take part in the match gives the empty text. *)
Definition mgroup (subject : string) (m : rmatch) (g : nat) : string :=
  match g with
  | O => substring (m_start m) (m_end m - m_start m) subject
  | _ => match assoc g (m_groups m) with
         | Some (b, e) => substring b (e - b) subject
         | None => EmptyString
         end
  end.

Definition try_at (p : pattern) (prev : option ascii) (pos : nat) (s : string)
  : option rmatch :=
  match match_at p prev pos s no_captures with
  | Some (e, cs) => Some {| m_start := pos; m_end := e; m_groups := spans cs |}
  | None => None
  end.

(** Leftmost match at or after [pos]. *)
Fixpoint search_from (p : pattern) (prev : option ascii) (pos : nat)
         (s : string) : option rmatch :=
  match try_at p prev pos s with
  | Some m => Some m
  | None =>
      match s with
      | String c s' => search_from p (Some c) (S pos) s'
      | EmptyString => None
      end
  end.

(** [re.search(p, subject)] *)
Definition search (p : pattern) (subject : string) : option rmatch :=
  search_from p None 0 subject.

(** *** Replacement templates *)

Inductive tpart : Type :=
| TLit (c : ascii)
| TGroup (g : nat).

(** Reading state of the template parser. *)
Inductive tmode : Type :=
| TNormal
| TEsc                        (* after a backslash *)
| TName0                      (* after \g *)
| TName (n : option nat)      (* inside \g< , the digits read so far *)
| TOct0 (v more : nat)        (* after \0 , up to [more] further octal digits *)
| TDig1 (d1 : nat)            (* after \d1 *)
| TDig2 (d1 d2 : nat).        (* after \d1d2 *)

Definition BS : ascii := "092"%char.

Definition digit_val (c : ascii) : nat := nat_of_ascii c - 48.

(** The escapes a template knows: \a \b \f \n \r \t \v and \\ . *)
Definition escape (c : ascii) : option ascii :=
  if (c =? "a")%char then Some (ascii_of_nat 7)
  else if (c =? "b")%char then Some (ascii_of_nat 8)
  else if (c =? "f")%char then Some (ascii_of_nat 12)
  else if (c =? "n")%char then Some (ascii_of_nat 10)
  else if (c =? "r")%char then Some (ascii_of_nat 13)
  else if (c =? "t")%char then Some (ascii_of_nat 9)
  else if (c =? "v")%char then Some (ascii_of_nat 11)
  else if (c =? BS)%char then Some BS
  else None.

Definition add_group (ngroups g : nat) : option (list tpart) :=
  if (g <=? ngroups)%nat then Some [TGroup g] else None.

Definition tnormal (c : ascii) : tmode * list tpart :=
  if (c =? BS)%char then (TEsc, []) else (TNormal, [TLit c]).

(** After the parts [out] are emitted, [c] is read in normal mode. *)
Definition then_normal (out : option (list tpart)) (c : ascii)
  : option (tmode * list tpart) :=
  match out with
  | Some l => let (m, l') := tnormal c in Some (m, (l ++ l')%list)
  | None => None
  end.

(** One character of the template; [None] is [re.error] (or the
    [IndexError] of an unknown group name). *)
Definition tstep (ngroups : nat) (m : tmode) (c : ascii)
  : option (tmode * list tpart) :=
  match m with
  | TNormal => Some (tnormal c)
  | TEsc =>
      if (c =? "g")%char then Some (TName0, [])
      else if (c =? "0")%char then Some (TOct0 0 2, [])
      else if PyStr.is_digit c then Some (TDig1 (digit_val c), [])
      else match escape c with
           | Some e => Some (TNormal, [TLit e])
           | None => if PyStr.is_letter c then None
                     else Some (TNormal, [TLit BS; TLit c])
           end
  | TName0 => if (c =? "<")%char then Some (TName None, []) else None
  | TName n =>
      if (c =? ">")%char then
        match n with
        | Some g => match add_group ngroups g with
                    | Some l => Some (TNormal, l)
                    | None => None
                    end
        | None => None
        end
      else if PyStr.is_digit c then
        Some (TName (Some (10 * match n with Some g => g | None => 0 end
                           + digit_val c)), [])
      else None
  | TOct0 v more =>
      match more with
      | S more' =>
          if PyStr.is_octdigit c
          then Some (TOct0 (8 * v + digit_val c) more', [])
          else then_normal (Some [TLit (ascii_of_nat v)]) c
      | O => then_normal (Some [TLit (ascii_of_nat v)]) c
      end
  | TDig1 d1 =>
      if PyStr.is_digit c then Some (TDig2 d1 (digit_val c), [])
      else then_normal (add_group ngroups d1) c
  | TDig2 d1 d2 =>
      if (d1 <=? 7)%nat && (d2 <=? 7)%nat && PyStr.is_octdigit c then
        let v := 64 * d1 + 8 * d2 + digit_val c in
        if (255 <? v)%nat then None else Some (TNormal, [TLit (ascii_of_nat v)])
      else then_normal (add_group ngroups (10 * d1 + d2)) c
  end.

Definition tfinish (ngroups : nat) (m : tmode) : option (list tpart) :=
  match m with
  | TNormal => Some []
  | TEsc | TName0 | TName _ => None
  | TOct0 v _ => Some [TLit (ascii_of_nat v)]
  | TDig1 d1 => add_group ngroups d1
  | TDig2 d1 d2 => add_group ngroups (10 * d1 + d2)
  end.

Fixpoint parse_from (ngroups : nat) (m : tmode) (s : string)
  : option (list tpart) :=
  match s with
  | EmptyString => tfinish ngroups m
  | String c s' =>
      match tstep ngroups m c with
      | Some (m', out) =>
          match parse_from ngroups m' s' with
          | Some rest => Some (out ++ rest)%list
          | None => None
          end
      | None => None
      end
  end.

(** The replacement string of [re.sub] is compiled before any matching. *)
Definition parse_template (ngroups : nat) (repl : string)
  : option (list tpart) :=
  parse_from ngroups TNormal repl.

Fixpoint expand (t : list tpart) (subject : string) (m : rmatch) : string :=
  match t with
  | [] => EmptyString
  | TLit c :: t' => String c (expand t' subject m)
  | TGroup g :: t' => mgroup subject m g ++ expand t' subject m
  end.

(** The scan of [re.sub]: [skip] counts the characters of the current match
    still to be passed over.  The patterns substituted by the script begin
    with a literal, so they have no empty match; an empty match is expanded
    in place and the scan moves on by one character. *)
Fixpoint sub_from (p : pattern) (t : list tpart) (subject : string)
         (prev : option ascii) (pos : nat) (s : string) (skip : nat)
         {struct s} : string :=
  match skip with
  | S k =>
      match s with
      | String c s' => sub_from p t subject (Some c) (S pos) s' k
      | EmptyString => EmptyString
      end
  | O =>
      match try_at p prev pos s with
      | Some m =>
          expand t subject m ++
          match s with
          | String c s' =>
              if (pos <? m_end m)%nat
              then sub_from p t subject (Some c) (S pos) s' (m_end m - S pos)
              else String c (sub_from p t subject (Some c) (S pos) s' 0)
          | EmptyString => EmptyString
          end
      | None =>
          match s with
          | String c s' => String c (sub_from p t subject (Some c) (S pos) s' 0)
          | EmptyString => EmptyString
          end
      end
  end.

(** [re.sub(p, repl, subject)]; [None] when the replacement does not
    compile. *)
Definition sub (p : pattern) (repl subject : string) : option string :=
  match parse_template (groups p) repl with
  | Some t => Some (sub_from p t subject None 0 subject 0)
  | None => None
  end.

End Re.


(* ================================================================== *)
(** ** Exceptions, file system, output *)

Inductive exn : Type :=
| IOError (path : string)   (* open() or getmtime() failed on this path *)
| ReError.                  (* the replacement of re.sub does not compile *)

Inductive result (A : Type) : Type :=
| Ok (a : A)
| Raise (e : exn).

Arguments Ok {A} a.
Arguments Raise {A} e.

Definition bind {A B : Type} (r : result A) (k : A -> result B) : result B :=
  match r with
  | Ok a => k a
  | Raise e => Raise e
  end.

Notation "x <- r ;; k" := (bind r (fun x => k))
  (at level 61, r at next level, right associativity).

Definition of_option {A : Type} (e : exn) (o : option A) : result A :=
  match o with
  | Some a => Ok a
  | None => Raise e
  end.

(** A file carries its text, or [None] when reading it fails (no
    permission, not UTF-8), and its modification time in seconds. *)
#[local] Unset Elimination Schemes.
Inductive node : Type :=
| File (data : option string) (mtime : Z)
| Dir (entries : list (string * node)).
#[local] Set Elimination Schemes.

(** Induction on a tree: a directory inherits from all its entries. *)
Fixpoint node_ind (P : node -> Prop)
         (HFile : forall data mtime, P (File data mtime))
         (HDir : forall es, Forall (fun e => P (snd e)) es -> P (Dir es))
         (n : node) {struct n} : P n :=
  match n with
  | File data mtime => HFile data mtime
  | Dir es =>
      HDir es
        ((fix all (l : list (string * node)) : Forall (fun e => P (snd e)) l :=
            match l with
            | [] => Forall_nil _
            | (name, x) :: l' =>
                Forall_cons (name, x) (node_ind P HFile HDir x) (all l')
            end) es)
  end.

Fixpoint lookup (name : string) (es : list (string * node)) : option node :=
  match es with
  | [] => None
  | (n, x) :: es' => if n =? name then Some x else lookup name es'
  end.

(** The entry a path names, from the working directory [fs]. *)
Fixpoint resolve (fs : node) (segments : list string) : option node :=
  match segments with
  | [] => Some fs
  | seg :: rest =>
      if seg =? "." then resolve fs rest
      else match fs with
           | Dir es => match lookup seg es with
                       | Some x => resolve x rest
                       | None => None
                       end
           | File _ _ => None
           end
  end.

(** [open(path, 'r', encoding='utf-8').read()] *)
Definition open_read (fs : node) (path : string) : result string :=
  match resolve fs (PyStr.split "/" path) with
  | Some (File (Some content) _) => Ok content
  | _ => Raise (IOError path)
  end.

(** [os.path.getmtime(path)]; the script asks it of files only, and
    directories carry no time here. *)
Definition getmtime (fs : node) (path : string) : result Z :=
  match resolve fs (PyStr.split "/" path) with
  | Some (File _ mtime) => Ok mtime
  | _ => Raise (IOError path)
  end.

Fixpoint put (name : string) (x : node) (es : list (string * node))
  : list (string * node) :=
  match es with
  | [] => [(name, x)]
  | (n, y) :: es' =>
      if n =? name then (n, x) :: es' else (n, y) :: put name x es'
  end.

(** [open(name, 'w').write(content)] for a file name in the working
    directory, at time [now]; it fails on a directory of that name. *)
Definition open_write (now : Z) (fs : node) (name content : string)
  : result node :=
  match fs with
  | Dir es =>
      match lookup name es with
      | Some (Dir _) => Raise (IOError name)
      | _ => Ok (Dir (put name (File (Some content) now) es))
      end
  | File _ _ => Raise (IOError name)
  end.

(** [os.path.join(top, name)], [top] not ending in a separator. *)
Definition path_join (top name : string) : string := top ++ "/" ++ name.

(** [os.path.relpath(root, '.')] on the directories that [os.walk('.')]
    yields: these are ['.'] followed by ['/' name] for every level. *)
Definition relpath (root : string) : string :=
  if prefix "./" root then substring 2 (length root - 2) root else root.

Definition is_dir (e : string * node) : bool :=
  match snd e with Dir _ => true | File _ _ => false end.

Definition dir_names (es : list (string * node)) : list string :=
  map fst (filter is_dir es).

Definition file_names (es : list (string * node)) : list string :=
  map fst (filter (fun e => negb (is_dir e)) es).

(** [os.walk(top)], top-down.  The consumer may prune the directory list
    it is handed before the walk goes on; [keep] is the test it applies. *)
Fixpoint os_walk (keep : string -> bool) (top : string) (n : node)
  : list (string * list string * list string) :=
  match n with
  | File _ _ => []
  | Dir es =>
      (top, dir_names es, file_names es) ::
      (fix below (l : list (string * node)) :=
         match l with
         | [] => []
         | (name, child) :: l' =>
             match child with
             | Dir _ =>
                 if keep name
                 then (os_walk keep (path_join top name) child ++ below l')%list
                 else below l'
             | File _ _ => below l'
             end
         end) es
  end.

(** What the run prints. *)
Inductive event : Type :=
| ErrorProcessing (file_path : string) (e : exn)
    (* print(f"Error processing {file_path}: {e}") *)
| NoArticlesFound
    (* print("No articles found in the project structure") *)
| SuccessfullyUpdated (folders articles : nat)
    (* print(f"Successfully updated index.html with {..} folders and
       {..} articles") *)
| ErrorUpdating (e : exn).
    (* print(f"Error updating index.html: {e}") *)

(* ================================================================== *)
(** ** The structure *)

Record article : Type := {
  filename : string;
  title : string;
  date : string;
  summary : string;
  filepath : string
}.

Record group : Type := {
  language_code : string;
  media_name : option string;
  folder_path : string;
  articles : list article
}.

(** The dictionary [structure], in insertion order. *)
Definition Structure := list (string * group).

Fixpoint dict_get (key : string) (d : Structure) : option group :=
  match d with
  | [] => None
  | (k, g) :: d' => if k =? key then Some g else dict_get key d'
  end.

Definition dict_mem (key : string) (d : Structure) : bool :=
  match dict_get key d with Some _ => true | None => false end.

(** [d[key] = f(d[key])] on a key that is present. *)
Fixpoint dict_update (key : string) (f : group -> group) (d : Structure)
  : Structure :=
  match d with
  | [] => []
  | (k, g) :: d' =>
      if k =? key then (k, f g) :: d' else (k, g) :: dict_update key f d'
  end.

Definition set_articles (l : list article) (g : group) : group :=
  {| language_code := language_code g; media_name := media_name g;
     folder_path := folder_path g; articles := l |}.

(* ================================================================== *)
(** ** Article extractor *)

Import Re.

(** [r'^#\s+(.+)$'] with re.MULTILINE *)
Definition title_re : pattern :=
  ([Bol; One (Lit "#")] ++ plus Space ++ [Open 1] ++ plus Dot
   ++ [Close 1; Eol])%list.

(** [r'(\d{8})'] *)
Definition date_re : pattern := ([Open 1] ++ times 8 Digit ++ [Close 1])%list.

(** [r'\n\n([^\n]+)'] *)
Definition summary_re : pattern :=
  (lits (PyStr.lf ++ PyStr.lf) ++ [Open 1] ++ plus NotLF ++ [Close 1])%list.

Definition extract_title (content md_file : string) : string :=
  match search title_re content with
  | Some title_match => Re.mgroup content title_match 1
  | None => PyStr.replace ".md" EmptyString md_file
  end.

(** Decimal value of a run of digits. *)
Definition int_of (s : string) : nat :=
  fold_left (fun n c => 10 * n + digit_val c) (list_ascii_of_string s) 0.

Definition is_leap (y : nat) : bool :=
  (y mod 4 =? 0)%nat && (negb (y mod 100 =? 0)%nat || (y mod 400 =? 0)%nat).

Definition days_in_month (y m : nat) : nat :=
  match m with
  | 2 => if is_leap y then 29 else 28
  | 4 | 6 | 9 | 11 => 30
  | _ => 31
  end.

(** [datetime.strptime(date_str, '%Y%m%d')] on eight digits: four for the
    year, two for the month, two for the day.  A month or a day that can
    only be read with one digit leaves digits over, which is an error like
    a month, a day or a year out of range; [None] is that [ValueError]. *)
Definition strptime_Ymd (date_str : string) : option (nat * nat * nat) :=
  let y := int_of (substring 0 4 date_str) in
  let m := int_of (substring 4 2 date_str) in
  let d := int_of (substring 6 2 date_str) in
  if (1 <=? y)%nat && (1 <=? m)%nat && (m <=? 12)%nat
     && (1 <=? d)%nat && (d <=? days_in_month y m)%nat
  then Some (y, m, d) else None.

(** [str(n).zfill(w)] *)
Definition zfill (w : nat) (n : nat) : string :=
  let s := PyStr.of_nat n in
  string_of_list_ascii (repeat "0"%char (w - length s)) ++ s.

(** [date_obj.strftime('%Y-%m-%d')] *)
Definition strftime_Y_m_d (t : nat * nat * nat) : string :=
  let '(y, m, d) := t in zfill 4 y ++ "-" ++ zfill 2 m ++ "-" ++ zfill 2 d.

(** The date read off the file name, when it has eight digits in a row. *)
Definition date_from_filename (md_file : string) : option string :=
  match search date_re md_file with
  | Some date_match =>
      let date_str := Re.mgroup md_file date_match 1 in
      match strptime_Ymd date_str with
      | Some date_obj => Some (strftime_Y_m_d date_obj)
      | None => Some date_str
      end
  | None => None
  end.

Definition truncate_summary (summary : string) : string :=
  if (150 <? length summary)%nat then PyStr.take 150 summary ++ "..."
  else summary.

(** The summary as the pattern finds it, before truncation. *)
Definition raw_summary (content : string) : string :=
  match search summary_re content with
  | Some summary_match => Re.mgroup content summary_match 1
  | None => EmptyString
  end.

Definition extract_summary (content : string) : string :=
  truncate_summary (raw_summary content).

(* ================================================================== *)
(** ** The run *)

(** The text with which the two regions of the template begin. *)
Definition showcase_tag : string :=
  "<div class=" ++ PyStr.dq ++ "language-showcase" ++ PyStr.dq.

Definition news_list_tag : string :=
  "<ul class=" ++ PyStr.dq ++ "news-list" ++ PyStr.dq.

(** The opening tag of the showcase region written without blanks. *)
Definition open_showcase : string := showcase_tag ++ ">".

Section Run.

(** [datetime.fromtimestamp(t).strftime('%Y-%m-%d')]: the local calendar
    day of a time stamp. *)
Variable local_date : Z -> string.

(** The time at which the run writes its output. *)
Variable now : Z.

Definition extract_date (fs : node) (file_path md_file : string)
  : result string :=
  match date_from_filename md_file with
  | Some date_formatted => Ok date_formatted
  | None =>
      mtime <- getmtime fs file_path ;;
      Ok (local_date mtime)
  end.

(** The body of the [try] for one markdown file. *)
Definition read_article (fs : node) (file_path md_file : string)
  : result article :=
  content <- open_read fs file_path ;;
  let title := extract_title content md_file in
  date_formatted <- extract_date fs file_path md_file ;;
  let summary := extract_summary content in
  Ok {| filename := md_file; title := title; date := date_formatted;
        summary := summary; filepath := file_path |}.

Definition append_article (a : article) (g : group) : group :=
  set_articles (articles g ++ [a])%list g.

(** One turn of [for md_file in md_files]. *)
Definition process_file (fs : node) (root folder_key : string)
           (st : Structure * list event) (md_file : string)
  : Structure * list event :=
  let '(structure, log) := st in
  let file_path := path_join root md_file in
  match read_article fs file_path md_file with
  | Ok a => (dict_update folder_key (append_article a) structure, log)
  | Raise e => (structure, (log ++ [ErrorProcessing file_path e])%list)
  end.

Definition is_md_file (f : string) : bool :=
  PyStr.endswith ".md" f && negb (f =? "README.md").

Definition not_hidden (d : string) : bool := negb (PyStr.startswith "." d).

(** One turn of [for root, dirs, files in os.walk('.')], after the pruning
    of [dirs]. *)
Definition visit (fs : node) (st : Structure * list event)
           (y : string * list string * list string)
  : Structure * list event :=
  let '(root, dirs, files) := y in
  if root =? "." then st
  else
    let rel_path := relpath root in
    let path_parts := PyStr.split "/" rel_path in
    let '(lang_code, media_name) := get_language_info_from_path path_parts in
    let md_files := filter is_md_file files in
    match md_files, lang_code with
    | _ :: _, Some (String _ _ as lang_code) =>
        let folder_key :=
          match media_name with
          | Some (String _ _ as m) => lang_code ++ "_" ++ m
          | _ => lang_code
          end in
        let '(structure, log) := st in
        let structure :=
          if negb (dict_mem folder_key structure) then
            (structure ++ [(folder_key,
                            {| language_code := lang_code;
                               media_name := media_name;
                               folder_path := rel_path;
                               articles := [] |})])%list
          else structure in
        fold_left (process_file fs root folder_key) md_files (structure, log)
    | _, _ => st
    end.

Definition get_project_structure (fs : node) : Structure * list event :=
  fold_left (visit fs) (os_walk not_hidden "." fs) ([], []).

Definition get_existing_languages (structure : Structure) : list string :=
  PyStr.sorted (PyStr.dedup (map (fun kv => language_code (snd kv)) structure)).

Definition spaces (n : nat) : string :=
  string_of_list_ascii (repeat " "%char n).

Definition generate_language_showcase_html (languages : list string) : string :=
  match languages with
  | [] => EmptyString
  | _ =>
      let language_html :=
        map (fun lang => "<span class=" ++ PyStr.dq ++ "language" ++ PyStr.dq
                         ++ ">" ++ lang ++ "</span>") languages in
      let languages_joined :=
        PyStr.join (PyStr.lf ++ spaces 16) language_html in
      PyStr.lf ++ spaces 12 ++ "<div class=" ++ PyStr.dq ++ "language-showcase"
      ++ PyStr.dq ++ ">" ++ PyStr.lf ++ spaces 16 ++ languages_joined
      ++ PyStr.lf ++ spaces 12 ++ "</div>"
  end.

(** [articles.sort(key=lambda x: x['date'], reverse=True)]: newest first,
    articles of equal date in the order they had. *)
Fixpoint insert_by_date (a : article) (l : list article) : list article :=
  match l with
  | [] => [a]
  | b :: l' =>
      if String.ltb (date a) (date b) then b :: insert_by_date a l' else a :: l
  end.

Definition sort_articles (l : list article) : list article :=
  fold_right insert_by_date [] l.

Definition language_tag_of (g : group) : string :=
  match media_name g with
  | Some (String _ _ as m) => language_code g ++ " - " ++ m
  | _ => language_code g
  end.

Definition link_target (a : article) : string :=
  PyStr.replace ".md" EmptyString (filepath a).

Definition item_html (language_tag : string) (a : article) : string :=
  let relative_path := link_target a in
  PyStr.lf ++ spaces 12 ++ "<li class=" ++ PyStr.dq ++ "news-item" ++ PyStr.dq
  ++ ">" ++ PyStr.lf
  ++ spaces 16 ++ "<div class=" ++ PyStr.dq ++ "news-header" ++ PyStr.dq ++ ">"
  ++ PyStr.lf
  ++ spaces 20 ++ "<span class=" ++ PyStr.dq ++ "news-date" ++ PyStr.dq ++ ">"
  ++ date a ++ "</span>" ++ PyStr.lf
  ++ spaces 20 ++ "<span class=" ++ PyStr.dq ++ "language-tag" ++ PyStr.dq
  ++ ">" ++ language_tag ++ "</span>" ++ PyStr.lf
  ++ spaces 20 ++ "<a href=" ++ PyStr.dq ++ relative_path ++ PyStr.dq
  ++ " class=" ++ PyStr.dq ++ "news-title" ++ PyStr.dq ++ ">" ++ title a
  ++ "</a>" ++ PyStr.lf
  ++ spaces 16 ++ "</div>" ++ PyStr.lf
  ++ spaces 12 ++ "</li>".

(** One turn of [for folder_key in sorted_folders]: the article list of the
    folder is sorted where it lives, inside the structure. *)
Definition render_folder (st : list string * Structure) (folder_key : string)
  : list string * Structure :=
  let '(items_html, structure) := st in
  match dict_get folder_key structure with
  | Some folder_data =>
      let language_tag := language_tag_of folder_data in
      let articles := sort_articles (articles folder_data) in
      let structure :=
        dict_update folder_key (set_articles articles) structure in
      ((items_html ++ map (item_html language_tag) articles)%list, structure)
  | None => st
  end.

(** Returns the HTML and the structure as the call leaves it. *)
Definition generate_news_list_html (structure : Structure)
  : string * Structure :=
  let sorted_folders := PyStr.sorted (map fst structure) in
  let '(items_html, structure) :=
    fold_left render_folder sorted_folders ([], structure) in
  (PyStr.join PyStr.lf items_html, structure).

(** The showcase region, under re.DOTALL; with blanks between its parts:
    [( <div class="language-showcase" \s* \> \s* ) .*? ( \s* </div \s* \> )] *)
Definition showcase_re : pattern :=
  ([Open 1] ++ lits showcase_tag
   ++ [Star Space; One (Lit ">"); Star Space; Close 1; LazyStar DotAll;
       Open 2; Star Space]
   ++ lits "</div" ++ [Star Space; One (Lit ">"); Close 2])%list.

(** The news-list region, under re.DOTALL; with blanks between its parts:
    [( <ul class="news-list" \s* \> \s* ) .*? ( \s* </ul \s* \> )] *)
Definition news_list_re : pattern :=
  ([Open 1] ++ lits news_list_tag
   ++ [Star Space; One (Lit ">"); Star Space; Close 1; LazyStar DotAll;
       Open 2; Star Space]
   ++ lits "</ul" ++ [Star Space; One (Lit ">"); Close 2])%list.

Definition backref (g : string) : string := String BS g.

Definition re_sub (p : pattern) (repl subject : string) : result string :=
  of_option ReError (Re.sub p repl subject).

(** "Replace language showcase section" *)
Definition replace_language_showcase
           (language_showcase_html template_content : string) : result string :=
  re_sub showcase_re
         match language_showcase_html with
         | String _ _ => backref "1" ++ language_showcase_html ++ backref "2"
         | EmptyString => EmptyString
         end
         template_content.

(** "Replace news-list section" *)
Definition replace_news_list (news_list_html updated_content : string)
  : result string :=
  re_sub news_list_re (backref "1" ++ news_list_html ++ backref "2")
         updated_content.

Definition count_articles (structure : Structure) : nat :=
  list_sum (map (fun kv => List.length (articles (snd kv))) structure).

(** The outcome of a run: the value returned, the file system and what was
    printed. *)
Definition update_index_html (fs : node) : bool * node * list event :=
  let '(structure, log) := get_project_structure fs in
  match structure with
  | [] => (false, fs, (log ++ [NoArticlesFound])%list)
  | _ =>
      let '(news_list_html, structure) := generate_news_list_html structure in
      let existing_languages := get_existing_languages structure in
      let language_showcase_html :=
        generate_language_showcase_html existing_languages in
      let written :=
        template_content <- open_read fs "index_template.html" ;;
        updated_content <-
          replace_language_showcase language_showcase_html template_content ;;
        updated_content <- replace_news_list news_list_html updated_content ;;
        open_write now fs "index.html" updated_content in
      match written with
      | Ok fs' =>
          (true, fs',
           (log ++ [SuccessfullyUpdated (List.length structure)
                                        (count_articles structure)])%list)
      | Raise e => (false, fs, (log ++ [ErrorUpdating e])%list)
      end
  end.

End Run.

(* ================================================================== *)
(** ** Sample inputs *)

Module Sample.

(** A clock under which every time stamp falls on the first of June 2024. *)
Definition day_of (t : Z) : string := "2024-06-01".

Definition run_time : Z := 1717200000%Z.

(** en/bbc/.draft.md : a hidden markdown file in a classified folder. *)
Definition tree_hidden : node :=
  Dir [("en", Dir [("bbc", Dir [
    (".draft.md",
     File (Some ("# Draft" ++ PyStr.lf ++ PyStr.lf ++ "Not ready." ++ PyStr.lf))
          0%Z)])])].

Definition draft_group : group :=
  {| language_code := "EN"; media_name := Some "BBC";
     folder_path := "en/bbc";
     articles := [{| filename := ".draft.md"; title := "Draft";
                     date := "2024-06-01"; summary := "Not ready.";
                     filepath := "./en/bbc/.draft.md" |}] |}.

(** news/en/bbc/20240301_notes.md.md : the extension occurs twice, and the
    text has no heading line. *)
Definition tree_md : node :=
  Dir [("news", Dir [("en", Dir [("bbc", Dir [
    ("20240301_notes.md.md",
     File (Some ("no heading here" ++ PyStr.lf)) 0%Z)])])])].

Definition notes_article : article :=
  {| filename := "20240301_notes.md.md";
     title := "20240301_notes";
     date := "2024-03-01";
     summary := EmptyString;
     filepath := "./news/en/bbc/20240301_notes.md.md" |}.

(** An article found at the path [p]. *)
Definition story_at (p : string) : article :=
  {| filename := "20240301_a.md"; title := "A"; date := "2024-03-01";
     summary := EmptyString; filepath := p |}.

Definition story (d : string) : article :=
  {| filename := d ++ ".md"; title := "Story of " ++ d; date := d;
     summary := EmptyString; filepath := "./en/bbc/" ++ d ++ ".md" |}.

(** One folder whose articles stand oldest first. *)
Definition oldest_first : Structure :=
  [("EN_BBC",
    {| language_code := "EN"; media_name := Some "BBC";
       folder_path := "en/bbc";
       articles := [story "2024-01-01"; story "2024-02-01"] |})].

(** The same folder after rendering. *)
Definition newest_first_group : group :=
  {| language_code := "EN"; media_name := Some "BBC";
     folder_path := "en/bbc";
     articles := [story "2024-02-01"; story "2024-01-01"] |}.

Definition story_text : string :=
  "# Big Story" ++ PyStr.lf ++ PyStr.lf ++ "This is the opening line."
  ++ PyStr.lf.

(** A tree with one article and a template that has a showcase region but
    no news-list region. *)
Definition template_without_list : string :=
  "<body>" ++ open_showcase ++ "</div><p>no list here</p></body>".

(** A template whose showcase region lists one language. *)
Definition template_with_showcase : string :=
  "<body>" ++ open_showcase ++ "<span>EN</span>" ++ "</div>" ++ "</body>".

Definition tree_without_list : node :=
  Dir [("index_template.html", File (Some template_without_list) 0%Z);
       ("news", Dir [("en", Dir [("bbc", Dir [
          ("20240301_story.md", File (Some story_text) 0%Z)])])])].

(** A tree in which nothing qualifies. *)
Definition tree_empty : node :=
  Dir [("index_template.html", File (Some template_without_list) 0%Z);
       ("README.md", File (Some story_text) 0%Z);
       ("en", Dir [("20240301_story.md", File (Some story_text) 0%Z)])].

End Sample.

(* ================================================================== *)
(** ** Notions used in the statements *)

(** The rule as the specification words it, in priority order. *)
Definition classifier_rule (segments : list string)
  : option string * option string :=
  if (3 <=? List.length segments)%nat && (item 0 segments =? "news") then
    (Some (PyStr.upper (item 1 segments)), Some (PyStr.upper (item 2 segments)))
  else if (2 <=? List.length segments)%nat then
    (Some (PyStr.upper (item 0 segments)), Some (PyStr.upper (item 1 segments)))
  else (None, None).

(** The file name or path without its trailing article-file extension. *)
Definition strip_extension (s : string) : string :=
  if PyStr.endswith ".md" s then PyStr.take (length s - 3) s else s.

(** [b] is not newer than [a]. *)
Definition newest_first (a b : article) : Prop :=
  String.ltb (date a) (date b) = false.

(** Same group, its articles possibly in another order. *)
Definition same_but_order (g g' : group) : Prop :=
  language_code g' = language_code g /\
  media_name g' = media_name g /\
  folder_path g' = folder_path g /\
  Permutation (articles g) (articles g').

(** Same keys in the same order, each with the same group up to the order
    of its articles. *)
Definition reordered (s s' : Structure) : Prop :=
  Forall2 (fun kv kv' => fst kv' = fst kv /\ same_but_order (snd kv) (snd kv'))
          s s'.

(** The articles found under [key] stand newest first. *)
Definition sorted_at (s : Structure) (key : string) : Prop :=
  forall g, dict_get key s = Some g -> Sorted newest_first (articles g).

(** [s] begins with [n] digits. *)
Fixpoint digit_run (n : nat) (s : string) : bool :=
  match n, s with
  | O, _ => true
  | S n', String c s' => PyStr.is_digit c && digit_run n' s'
  | S _, EmptyString => false
  end.

(** The leftmost eight digits in a row of a file name. *)
Fixpoint first_eight_digits (s : string) : option string :=
  if digit_run 8 s then Some (PyStr.take 8 s)
  else match s with
       | EmptyString => None
       | String _ s' => first_eight_digits s'
       end.

(** [s] does not contain the character [c]. *)
Fixpoint free_of (c : ascii) (s : string) : bool :=
  match s with
  | EmptyString => true
  | String a s' => negb (a =? c)%char && free_of c s'
  end.

(** A name a directory entry can have: not empty, no separator in it. *)
Definition entry_name_ok (n : string) : bool :=
  negb (n =? EmptyString) && free_of "/" n.

(** Every entry of the tree, at any depth, has such a name. *)
Fixpoint names_ok (n : node) : bool :=
  match n with
  | File _ _ => true
  | Dir es =>
      (fix all (l : list (string * node)) : bool :=
         match l with
         | [] => true
         | (name, x) :: l' => entry_name_ok name && names_ok x && all l'
         end) es
  end.

(** The group stored under [key] has a media name, and the key is the
    composite of language code and media name. *)
Definition composite (kv : string * group) : Prop :=
  exists m, media_name (snd kv) = Some m /\
            fst kv = language_code (snd kv) ++ "_" ++ m.

(** The directory reached from ['.'] through the names [ns]. *)
Definition under (ns : list string) : string := fold_left path_join ns ".".

Definition slashed (ns : list string) : string :=
  fold_right (fun n r => "/" ++ n ++ r) EmptyString ns.

(** Outcomes of the matcher at one position. *)
Module Matching.
Import Re.

(** [p] matches at the head of [s] and takes exactly [n] characters,
    whatever stands before. *)
Definition ends (p : pattern) (s : string) (n : nat) : Prop :=
  forall prev pos cs, exists cs',
    match_at p prev pos s cs = Some (pos + n, cs').

(** [p] does not match at the head of [s]. *)
Definition fails (p : pattern) (s : string) : Prop :=
  forall prev pos cs, match_at p prev pos s cs = None.

(** The head of [s] is not in class [k]. *)
Definition head_rejected (k : cclass) (s : string) : Prop :=
  match s with
  | EmptyString => True
  | String c _ => accepts k c = false
  end.

(** The last character passed after reading [w]. *)
Fixpoint last_after (prev : option ascii) (w : string) : option ascii :=
  match w with
  | EmptyString => prev
  | String c w' => last_after (Some c) w'
  end.

(** The part of a region pattern after the lazy body, for the closing tag
    [close_tag >]. *)
Definition close_pat (close_tag : string) : pattern :=
  (Star Space :: lits close_tag ++ [Star Space; One (Lit ">"); Close 2])%list.

Definition body_pat (close_tag : string) : pattern :=
  LazyStar DotAll :: Open 2 :: close_pat close_tag.

(** The text from the closing tag on. *)
Definition closing (close_tag after : string) : string :=
  close_tag ++ ">" ++ after.

End Matching.

(* ================================================================== *)
(** ** Notions used in the further statements *)

(** Ascending in code-point order. *)
Definition ascending (l : list string) : Prop :=
  Sorted (fun a b => String.leb a b = true) l.

(** The structure with a group under [key], as [visit] makes sure of
    before it reads the files of a folder. *)
Definition ensure_group (key : string) (g : group) (s : Structure)
  : Structure :=
  if negb (dict_mem key s) then (s ++ [(key, g)])%list else s.

(** What the classifier says of the folder of a group is what the group
    records. *)
Definition classified (g : group) : Prop :=
  exists c l,
    language_code g = String c l /\
    get_language_info_from_path (PyStr.split "/" (folder_path g))
    = (Some (language_code g), media_name g).

(** An article as the extractor makes them. *)
Definition article_ok (a : article) : Prop :=
  is_md_file (filename a) = true /\
  (exists root, filepath a = path_join root (filename a)) /\
  length (summary a) <= 153.

(** What the news list shows of the folder under [key]: its tag and its
    articles, newest first. *)
Definition shown (s : Structure) (key : string)
  : option (string * list article) :=
  option_map (fun g => (language_tag_of g, sort_articles (articles g)))
             (dict_get key s).

Definition shown_items (v : option (string * list article)) : list string :=
  match v with
  | Some (tag, l) => map (item_html tag) l
  | None => []
  end.

(** The key and the fresh group that [visit] derives from the answer of
    the classifier. *)
Definition folder_key_of (lang_code : string) (media_name : option string)
  : string :=
  match media_name with
  | Some (String _ _ as m) => lang_code ++ "_" ++ m
  | _ => lang_code
  end.

Definition new_group (lang_code : string) (media_name : option string)
           (rel_path : string) : group :=
  {| language_code := lang_code; media_name := media_name;
     folder_path := rel_path; articles := [] |}.

(** A key with its group, as [visit] enters them. *)
Definition entered (kv : string * group) : Prop :=
  classified (snd kv) /\
  fst kv = folder_key_of (language_code (snd kv)) (media_name (snd kv)).

(** [s] consists of white space only. *)
Fixpoint all_space (s : string) : bool :=
  match s with
  | EmptyString => true
  | String c s' => PyStr.is_space c && all_space s'
  end.

(** The last character of [s], if there is one, is no white space. *)
Fixpoint last_not_space (s : string) : bool :=
  match s with
  | EmptyString => true
  | String c EmptyString => negb (PyStr.is_space c)
  | String _ s' => last_not_space s'
  end.

(** The first character of [s], if there is one, is no white space. *)
Definition head_not_space (s : string) : bool :=
  match s with
  | EmptyString => true
  | String c _ => negb (PyStr.is_space c)
  end.

(** [core] neither begins nor ends with white space, and where it is
    empty so is [trail]: the white space inside a region then splits in
    one way into what precedes [core] and what follows it. *)
Definition tight (core trail : string) : bool :=
  match core with
  | EmptyString => trail =? EmptyString
  | String _ _ => head_not_space core && last_not_space core
  end.

(** The first character of [s], if there is one, is no digit. *)
Definition head_not_digit (s : string) : bool :=
  match s with
  | EmptyString => true
  | String c _ => negb (PyStr.is_digit c)
  end.

(** [s] is empty or begins a new line. *)
Definition line_ends (s : string) : bool :=
  match s with
  | EmptyString => true
  | String c _ => (c =? PyStr.LF)%char
  end.

(** The matcher with the groups it records. *)
Module Tracking.
Import Re.

(** A group bracket passed at an offset from the start of the match. *)
Inductive mark : Type :=
| MOpen (g off : nat)
| MClose (g off : nat).

Definition shift (k : nat) (m : mark) : mark :=
  match m with
  | MOpen g off => MOpen g (k + off)
  | MClose g off => MClose g (k + off)
  end.

Definition apply_mark (pos : nat) (cs : captures) (m : mark) : captures :=
  match m with
  | MOpen g off => open_group g (pos + off) cs
  | MClose g off => close_group g (pos + off) cs
  end.

Definition apply_marks (pos : nat) (ms : list mark) (cs : captures)
  : captures :=
  fold_left (apply_mark pos) ms cs.

(** [p] matches at the head of [s], takes exactly [n] characters and
    passes the brackets [ms], whatever stands before. *)
Definition yields (p : pattern) (s : string) (n : nat) (ms : list mark)
  : Prop :=
  forall prev pos cs,
    match_at p prev pos s cs = Some (pos + n, apply_marks pos ms cs).

(** The pattern of a region that begins with [tag] and closes with
    [close_tag]. *)
Definition region_re (tag close_tag : string) : pattern :=
  (Open 1 :: lits tag
   ++ Star Space :: One (Lit ">") :: Star Space :: Close 1
   :: Matching.body_pat close_tag)%list.

(** The compiled replacement [\1 html \2] for a text without backslash. *)
Definition between_groups (html : string) : list tpart :=
  (TGroup 1 :: map TLit (list_ascii_of_string html) ++ [TGroup 2])%list.

End Tracking.



(** The articles of [l] dated [d], in the order they have in [l]. *)
Definition dated (d : string) (l : list article) : list article :=
  filter (fun a => date a =? d) l.




(* ================================================================== *)
(** * Properties *)

(** C3: on every list of segments the classifier follows the three-way rule:
    with at least three segments the first of which is [news] it returns
    segments 1 and 2 upper-cased; otherwise with at least two segments it
    returns segments 0 and 1 upper-cased; otherwise it returns
    (absent, absent).  Being a function of the list, equal lists give equal
    answers. *)
Theorem classifier_follows_rule :
  forall segments : list string,
    get_language_info_from_path segments = classifier_rule segments.
Proof.
  intros [|s0 [|s1 [|s2 rest]]]; try reflexivity;
    unfold get_language_info_from_path, classifier_rule, item; simpl;
    destruct (s0 =? "news"); reflexivity.
Qed.

(* ------------------------------------------------------------------ *)
(** ** Lengths of strings *)

Lemma str_length_app (s t : string) : length (s ++ t) = length s + length t.
Proof. induction s as [|c s IH]; simpl; [reflexivity | now rewrite IH]. Qed.

Lemma length_substring0 (n : nat) (s : string) :
  length (substring 0 n s) = Nat.min n (length s).
Proof.
  revert n; induction s as [|c s IH]; intros [|n]; simpl; try reflexivity.
  now rewrite IH.
Qed.

Lemma str_app_nil_r (s : string) : s ++ EmptyString = s.
Proof. induction s as [|c s IH]; simpl; [reflexivity | now rewrite IH]. Qed.

Lemma str_app_assoc (s t u : string) : (s ++ t) ++ u = s ++ t ++ u.
Proof. induction s as [|c s IH]; simpl; [reflexivity | now rewrite IH]. Qed.

(* ------------------------------------------------------------------ *)
(** ** Summary *)

(** C8: the stored summary, which is [truncate_summary] of the raw
    summary, is at most 153 characters long, and it is the first 150
    characters of the raw summary followed by the marker [...] exactly when
    the raw summary is longer than 150 characters. *)
Theorem summary_truncation :
  (forall content : string,
      extract_summary content = truncate_summary (raw_summary content)) /\
  forall raw : string,
    length (truncate_summary raw) <= 153 /\
    (truncate_summary raw = PyStr.take 150 raw ++ "..." <-> 150 < length raw).
Proof.
  split; [reflexivity|].
  intro raw; unfold truncate_summary, PyStr.take.
  destruct (150 <? length raw)%nat eqn:E.
  - apply Nat.ltb_lt in E. split.
    + rewrite str_length_app, length_substring0.
      change (length "...") with 3. lia.
    + split; [intros _; exact E | reflexivity].
  - apply Nat.ltb_ge in E. split; [lia|].
    split; [|lia].
    intro H. apply (f_equal length) in H.
    rewrite str_length_app, length_substring0 in H.
    change (length "...") with 3 in H. lia.
Qed.

(* ------------------------------------------------------------------ *)
(** ** Empty structure *)

(** C9: when the structure built from the tree is empty, the run prints
    that no articles were found, leaves the file system as it was (nothing
    is written) and returns failure. *)
Theorem empty_structure_fails :
  forall (local_date : Z -> string) (now : Z) (fs : node),
    fst (get_project_structure local_date fs) = [] ->
    update_index_html local_date now fs =
      (false, fs,
       (snd (get_project_structure local_date fs) ++ [NoArticlesFound])%list).
Proof.
  intros local_date now fs H. unfold update_index_html.
  destruct (get_project_structure local_date fs) as [structure log].
  simpl in H. subst structure. reflexivity.
Qed.

Lemma empty_structure_fails_witness :
  fst (get_project_structure Sample.day_of Sample.tree_empty) = [] /\
  update_index_html Sample.day_of Sample.run_time Sample.tree_empty =
    (false, Sample.tree_empty, [NoArticlesFound]).
Proof.
  split; [reflexivity|].
  exact (empty_structure_fails Sample.day_of Sample.run_time Sample.tree_empty
           eq_refl).
Defined.

(* ------------------------------------------------------------------ *)
(** ** Hidden files *)

(** C2: the walk prunes hidden directories only.  On the tree
    [en/bbc/.draft.md] the hidden file is read like any other markdown file
    and becomes an article of group [EN_BBC]. *)
Theorem hidden_file_becomes_article :
  get_project_structure Sample.day_of Sample.tree_hidden =
    ([("EN_BBC", Sample.draft_group)], []) /\
  map filename (articles Sample.draft_group) = [".draft.md"].
Proof. split; vm_compute; reflexivity. Qed.

(* ------------------------------------------------------------------ *)
(** ** Extension stripping *)

(** C6: the title fallback and the link target remove every occurrence of
    [.md], not only the trailing one.  For [20240301_notes.md.md] without a
    heading line the title and the link lose both occurrences, where
    stripping the extension would keep the first; and an occurrence inside
    a directory name is removed from the link as well. *)
Theorem replace_removes_every_md :
  fst (get_project_structure Sample.day_of Sample.tree_md) =
    [("EN_BBC",
      {| language_code := "EN"; media_name := Some "BBC";
         folder_path := "news/en/bbc";
         articles := [Sample.notes_article] |})] /\
  title Sample.notes_article = "20240301_notes" /\
  strip_extension (filename Sample.notes_article) = "20240301_notes.md" /\
  link_target Sample.notes_article = "./news/en/bbc/20240301_notes" /\
  strip_extension (filepath Sample.notes_article)
    = "./news/en/bbc/20240301_notes.md" /\
  link_target (Sample.story_at "./en/bbc.mdx/20240301_a.md")
    = "./en/bbcx/20240301_a".
Proof. repeat split; vm_compute; reflexivity. Qed.

(* ------------------------------------------------------------------ *)
(** ** Reasoning about the matcher *)

Module ReFacts.
Import Re Matching.

Lemma star_unfold k p prev pos s cs :
  match_at (Star k :: p) prev pos s cs =
  match s with
  | String c s' =>
      if accepts k c then
        match match_at (Star k :: p) (Some c) (S pos) s' cs with
        | Some r => Some r
        | None => match_at p prev pos s cs
        end
      else match_at p prev pos s cs
  | EmptyString => match_at p prev pos s cs
  end.
Proof. destruct s; reflexivity. Qed.

Lemma lazy_unfold k p prev pos s cs :
  match_at (LazyStar k :: p) prev pos s cs =
  match match_at p prev pos s cs with
  | Some r => Some r
  | None =>
      match s with
      | String c s' =>
          if accepts k c
          then match_at (LazyStar k :: p) (Some c) (S pos) s' cs
          else None
      | EmptyString => None
      end
  end.
Proof. destruct s; reflexivity. Qed.

Lemma ends_nil s : ends [] s 0.
Proof. intros prev pos cs. exists cs. simpl. now rewrite Nat.add_0_r. Qed.

Lemma ends_one k c p s n :
  accepts k c = true -> ends p s n -> ends (One k :: p) (String c s) (S n).
Proof.
  intros Hk H prev pos cs. simpl. rewrite Hk.
  destruct (H (Some c) (S pos) cs) as [cs' E]. exists cs'.
  rewrite E. f_equal. f_equal. lia.
Qed.

Lemma ends_open g p s n : ends p s n -> ends (Open g :: p) s n.
Proof. intros H prev pos cs. simpl. apply H. Qed.

Lemma ends_close g p s n : ends p s n -> ends (Close g :: p) s n.
Proof. intros H prev pos cs. simpl. apply H. Qed.

Lemma ends_star_stop k p s n :
  head_rejected k s -> ends p s n -> ends (Star k :: p) s n.
Proof.
  intros Hh H prev pos cs. rewrite star_unfold.
  destruct s as [|c s]; [apply H|].
  simpl in Hh. rewrite Hh. apply H.
Qed.

Lemma ends_star_step k c p s n :
  accepts k c = true -> ends (Star k :: p) s n ->
  ends (Star k :: p) (String c s) (S n).
Proof.
  intros Hk H prev pos cs. rewrite star_unfold, Hk.
  destruct (H (Some c) (S pos) cs) as [cs' E]. exists cs'.
  rewrite E. f_equal. f_equal. lia.
Qed.

Lemma ends_lazy_stop k p s n : ends p s n -> ends (LazyStar k :: p) s n.
Proof.
  intros H prev pos cs. rewrite lazy_unfold.
  destruct (H prev pos cs) as [cs' E]. exists cs'. now rewrite E.
Qed.

Lemma ends_lazy_step k c p s n :
  fails p (String c s) -> accepts k c = true ->
  ends (LazyStar k :: p) s n -> ends (LazyStar k :: p) (String c s) (S n).
Proof.
  intros Hf Hk H prev pos cs. rewrite lazy_unfold, Hf, Hk.
  destruct (H (Some c) (S pos) cs) as [cs' E]. exists cs'.
  rewrite E. f_equal. f_equal. lia.
Qed.

Lemma fails_open g p s : fails p s -> fails (Open g :: p) s.
Proof. intros H prev pos cs. simpl. apply H. Qed.

Lemma fails_star_stop k p s :
  head_rejected k s -> fails p s -> fails (Star k :: p) s.
Proof.
  intros Hh H prev pos cs. rewrite star_unfold.
  destruct s as [|c s]; [apply H|].
  simpl in Hh. rewrite Hh. apply H.
Qed.

Lemma fails_star_step k c p s :
  fails (Star k :: p) s -> fails p (String c s) ->
  fails (Star k :: p) (String c s).
Proof.
  intros H1 H2 prev pos cs. rewrite star_unfold, H1.
  destruct (accepts k c); apply H2.
Qed.

(** A run of literals fails where the text does not begin with it. *)
Lemma fails_lits lit p s :
  prefix lit s = false -> fails (lits lit ++ p)%list s.
Proof.
  revert s; induction lit as [|a lit IH]; intros s H prev pos cs.
  - destruct s; discriminate.
  - destruct s as [|c s]; [reflexivity|].
    simpl in H |- *.
    destruct (ascii_dec a c) as [->|Hne].
    + rewrite Ascii.eqb_refl. now apply IH.
    + replace (c =? a)%char with false; [reflexivity|].
      symmetry. apply Ascii.eqb_neq. congruence.
Qed.

Lemma sub_from_skip p t subject w :
  forall prev pos s,
    sub_from p t subject prev pos (w ++ s) (length w)
    = sub_from p t subject (last_after prev w) (pos + length w) s 0.
Proof.
  induction w as [|c w IH]; intros prev pos s; simpl.
  - rewrite Nat.add_0_r. destruct s; reflexivity.
  - rewrite IH. f_equal. lia.
Qed.

Lemma sub_from_unmatched p t subject s :
  forall prev pos,
    search_from p prev pos s = None ->
    sub_from p t subject prev pos s 0 = s.
Proof.
  induction s as [|c s IH]; intros prev pos H; simpl in H |- *.
  - destruct (try_at p prev pos EmptyString); [discriminate | reflexivity].
  - destruct (try_at p prev pos (String c s)); [discriminate|].
    f_equal. now apply IH.
Qed.

Lemma try_at_fails p prev pos s : fails p s -> try_at p prev pos s = None.
Proof. intro H. unfold try_at. now rewrite H. Qed.

Lemma try_at_ends p prev pos s n :
  ends p s n -> exists m, try_at p prev pos s = Some m /\ m_end m = pos + n.
Proof.
  intro H. unfold try_at. destruct (H prev pos no_captures) as [cs' E].
  rewrite E. eexists. split; reflexivity.
Qed.

End ReFacts.

(* ------------------------------------------------------------------ *)
(** ** The two regions of the template *)

Module Region.
Import Re Matching ReFacts.

Lemma find_cons needle c s n :
  PyStr.find needle (String c s) = Some (S n) ->
  prefix needle (String c s) = false /\ PyStr.find needle s = Some n.
Proof.
  cbn [PyStr.find]. destruct (prefix needle (String c s)); [discriminate|].
  destruct (PyStr.find needle s); simpl; [|discriminate].
  intro H. injection H as ->. auto.
Qed.

Lemma find_none needle s :
  PyStr.find needle s = None ->
  prefix needle s = false /\
  match s with
  | EmptyString => True
  | String _ s' => PyStr.find needle s' = None
  end.
Proof.
  destruct s as [|c s]; cbn [PyStr.find].
  - destruct (prefix needle EmptyString); [discriminate | auto].
  - destruct (prefix needle (String c s)); [discriminate|].
    destruct (PyStr.find needle s); [discriminate | auto].
Qed.

(** A region pattern cannot begin where its opening tag does not. *)
Lemma fails_off_tag g tag q s :
  prefix tag s = false -> fails (Open g :: lits tag ++ q)%list s.
Proof. intro H. apply fails_open, fails_lits, H. Qed.

Lemma search_without_tag g tag q s :
  PyStr.find tag s = None ->
  forall prev pos, search_from (Open g :: lits tag ++ q)%list prev pos s = None.
Proof.
  induction s as [|c s IH]; intros H prev pos;
    destruct (find_none _ _ H) as [Hp Hs]; cbn [search_from];
    rewrite (try_at_fails _ _ _ _ (fails_off_tag g tag q _ Hp)).
  - reflexivity.
  - now apply IH.
Qed.

Lemma sub_from_unfold p t subject prev pos c s :
  sub_from p t subject prev pos (String c s) 0 =
  match try_at p prev pos (String c s) with
  | Some m =>
      expand t subject m ++
      (if (pos <? m_end m)%nat
       then sub_from p t subject (Some c) (S pos) s (m_end m - S pos)
       else String c (sub_from p t subject (Some c) (S pos) s 0))
  | None => String c (sub_from p t subject (Some c) (S pos) s 0)
  end.
Proof. reflexivity. Qed.

(** The scan copies the text before the first opening tag. *)
Lemma scan_before_tag g tag q t subject before rest :
  forall prev pos,
    PyStr.find tag (before ++ rest) = Some (length before) ->
    sub_from (Open g :: lits tag ++ q)%list t subject prev pos
             (before ++ rest) 0
    = before ++ sub_from (Open g :: lits tag ++ q)%list t subject
                         (last_after prev before) (pos + length before) rest 0.
Proof.
  induction before as [|c before IH]; intros prev pos H.
  - simpl. now rewrite Nat.add_0_r.
  - cbn [append length] in H |- *.
    destruct (find_cons _ _ _ _ H) as [Hp Hf].
    rewrite sub_from_unfold,
      (try_at_fails _ _ _ _ (fails_off_tag g tag q _ Hp)).
    rewrite (IH _ _ Hf). cbn [last_after].
    replace (pos + S (length before)) with (S pos + length before) by lia.
    reflexivity.
Qed.

(** Where the pattern matches exactly the text [region], the scan puts the
    expansion of the match in its place. *)
Lemma scan_match p t subject prev pos region s :
  region <> EmptyString ->
  ends p (region ++ s) (length region) ->
  exists m,
    try_at p prev pos (region ++ s) = Some m /\
    sub_from p t subject prev pos (region ++ s) 0
    = expand t subject m ++
      sub_from p t subject (last_after prev region) (pos + length region) s 0.
Proof.
  intros Hne H. destruct region as [|c w]; [congruence|].
  destruct (try_at_ends _ prev pos _ _ H) as [m [E Hend]].
  exists m. split; [exact E|].
  cbn [append length last_after] in E, Hend |- *.
  rewrite sub_from_unfold, E, Hend.
  replace (pos <? pos + S (length w))%nat with true
    by (symmetry; apply Nat.ltb_lt; lia).
  replace (pos + S (length w) - S pos) with (length w) by lia.
  rewrite sub_from_skip.
  replace (S pos + length w) with (pos + S (length w)) by lia.
  reflexivity.
Qed.

Section CloseTag.

Variable close_tag : string.
Variable after : string.

Hypothesis close_tag_head :
  match close_tag with
  | String c _ => PyStr.is_space c = false
  | EmptyString => False
  end.

Lemma lits_end lit p s n :
  ends p s n -> ends (lits lit ++ p)%list (lit ++ s) (length lit + n).
Proof.
  induction lit as [|c lit IH]; intro H; simpl; [exact H|].
  apply ends_one; [apply Ascii.eqb_refl | now apply IH].
Qed.

Lemma close_here :
  ends (close_pat close_tag) (closing close_tag after) (length close_tag + 1).
Proof.
  unfold close_pat, closing. apply ends_star_stop.
  - destruct close_tag; [contradiction | exact close_tag_head].
  - apply lits_end. apply ends_star_stop; [reflexivity|].
    apply ends_one; [reflexivity|]. apply ends_close, ends_nil.
Qed.

Lemma close_or_fail inside :
  PyStr.find close_tag (inside ++ closing close_tag after)
    = Some (length inside) ->
  ends (close_pat close_tag) (inside ++ closing close_tag after)
       (length inside + (length close_tag + 1))
  \/ fails (close_pat close_tag) (inside ++ closing close_tag after).
Proof.
  induction inside as [|c inside IH]; intro H.
  - left. apply close_here.
  - cbn [append length] in H |- *.
    destruct (find_cons _ _ _ _ H) as [Hp Hf]. specialize (IH Hf).
    destruct (PyStr.is_space c) eqn:Hc.
    + destruct IH as [IH|IH].
      * left. now apply ends_star_step.
      * right. apply fails_star_step; [exact IH | now apply fails_lits].
    + right. apply fails_star_stop; [exact Hc | now apply fails_lits].
Qed.

Lemma body_reaches_close inside :
  PyStr.find close_tag (inside ++ closing close_tag after)
    = Some (length inside) ->
  ends (body_pat close_tag) (inside ++ closing close_tag after)
       (length inside + (length close_tag + 1)).
Proof.
  induction inside as [|c inside IH]; intro H.
  - apply ends_lazy_stop, ends_open, close_here.
  - destruct (close_or_fail _ H) as [He|Hf].
    + apply ends_lazy_stop, ends_open, He.
    + cbn [append length] in H |- *.
      destruct (find_cons _ _ _ _ H) as [_ Hf'].
      apply ends_lazy_step;
        [apply fails_open, Hf | reflexivity | apply IH, Hf'].
Qed.

Lemma blanks_then_body inside :
  PyStr.find close_tag (inside ++ closing close_tag after)
    = Some (length inside) ->
  ends (Star Space :: Close 1 :: body_pat close_tag)
       (inside ++ closing close_tag after)
       (length inside + (length close_tag + 1)).
Proof.
  induction inside as [|c inside IH]; intro H.
  - apply ends_star_stop.
    + simpl. unfold closing. destruct close_tag; [contradiction|].
      exact close_tag_head.
    + apply ends_close, body_reaches_close, H.
  - destruct (PyStr.is_space c) eqn:Hc.
    + cbn [append length] in H |- *.
      destruct (find_cons _ _ _ _ H) as [_ Hf].
      apply ends_star_step; [exact Hc | apply IH, Hf].
    + apply ends_star_stop; [exact Hc|].
      apply ends_close, body_reaches_close, H.
Qed.

(** The whole region [tag > inside close_tag >] is one match. *)
Lemma region_matches tag inside :
  PyStr.find close_tag (inside ++ closing close_tag after)
    = Some (length inside) ->
  ends (Open 1 :: lits tag
        ++ Star Space :: One (Lit ">") :: Star Space :: Close 1
        :: body_pat close_tag)%list
       (tag ++ ">" ++ inside ++ (closing close_tag after))
       (length tag + (1 + (length inside + (length close_tag + 1)))).
Proof.
  intro H. apply ends_open, lits_end.
  apply ends_star_stop; [reflexivity|].
  apply ends_one; [reflexivity|].
  apply blanks_then_body, H.
Qed.

End CloseTag.

End Region.

(* ------------------------------------------------------------------ *)
(** ** Empty language showcase *)

(** C7 (as it holds): for an empty list of languages the showcase fragment
    is the empty string; and with an empty fragment the substitution
    replaces the whole showcase region, its opening and closing tags
    included, by nothing.  Stated for a template with one showcase region:
    the opening tag first occurs after [before], the first [</div] after it
    is its closing tag, and [after] has no further opening tag. *)
Theorem empty_showcase_removes_region :
  generate_language_showcase_html [] = EmptyString /\
  forall before inside after : string,
    PyStr.find showcase_tag
               (before ++ open_showcase ++ inside ++ "</div>" ++ after)
      = Some (length before) ->
    PyStr.find "</div" (inside ++ "</div>" ++ after) = Some (length inside) ->
    PyStr.find showcase_tag after = None ->
    replace_language_showcase
      EmptyString
      (before ++ open_showcase ++ inside ++ "</div>" ++ after)
    = Ok (before ++ after).
Proof.
  split; [reflexivity|]. intros before inside after Hb Hi Ha.
  unfold replace_language_showcase, re_sub, Re.sub.
  change (Re.parse_template (Re.groups showcase_re) EmptyString)
    with (Some (@nil Re.tpart)).
  cbn [of_option]. f_equal.
  set (region := open_showcase ++ inside ++ "</div>").
  assert (Hsplit : open_showcase ++ inside ++ "</div>" ++ after
                   = region ++ after).
  { unfold region. now rewrite !str_app_assoc. }
  rewrite Hsplit in Hb |- *.
  set (subject := before ++ region ++ after).
  set (q := (Re.Star Re.Space :: Re.One (Re.Lit ">") :: Re.Star Re.Space
             :: Re.Close 1 :: Matching.body_pat "</div")%list).
  change showcase_re with (Re.Open 1 :: Re.lits showcase_tag ++ q)%list.
  unfold subject at 2.
  rewrite (Region.scan_before_tag 1 showcase_tag q [] subject before
             (region ++ after) None 0 Hb).
  assert (Hends : Matching.ends
                    (Re.Open 1 :: Re.lits showcase_tag ++ q)%list
                    (region ++ after) (length region)).
  { replace (region ++ after)
      with (showcase_tag ++ ">" ++ inside ++ "</div" ++ ">" ++ after)
      by (unfold region, open_showcase; now rewrite !str_app_assoc).
    replace (length region)
      with (length showcase_tag
            + (1 + (length inside + (length "</div" + 1))))
      by (unfold region, open_showcase;
          rewrite !str_length_app; simpl; lia).
    exact (Region.region_matches "</div" after eq_refl
             showcase_tag inside Hi). }
  assert (Hne : region <> EmptyString) by (unfold region; discriminate).
  destruct (Region.scan_match _ [] subject (Matching.last_after None before)
              (0 + length before) region after Hne Hends) as [m [_ Hs]].
  rewrite Hs. cbn [Re.expand append].
  rewrite ReFacts.sub_from_unmatched; [reflexivity|].
  apply Region.search_without_tag, Ha.
Qed.

Lemma empty_showcase_removes_region_witness :
  replace_language_showcase EmptyString Sample.template_with_showcase
  = Ok "<body></body>".
Proof.
  exact (proj2 empty_showcase_removes_region
               "<body>" "<span>EN</span>" "</body>" eq_refl eq_refl eq_refl).
Defined.

(** C7 (as stated) fails: with an empty fragment the region does not
    collapse to its two tags; the tags disappear with it. *)
Lemma empty_showcase_drops_the_tags :
  replace_language_showcase (generate_language_showcase_html [])
                            Sample.template_with_showcase
  = Ok "<body></body>" /\
  replace_language_showcase (generate_language_showcase_html [])
                            Sample.template_with_showcase
  <> Ok ("<body>" ++ open_showcase ++ "</div>" ++ "</body>").
Proof. split; [vm_compute; reflexivity | vm_compute; discriminate]. Qed.

(* ------------------------------------------------------------------ *)
(** ** Missing news-list region *)

(** C1 (as it holds): when the news-list region is not found in the
    document, the news-list substitution hands the document back as it is,
    and the run goes on: it writes that document to [index.html] and
    returns success.  The other steps are assumed to go through: articles
    were found, the template was read, the showcase substitution and the
    compilation of the news-list replacement raised nothing, and the output
    could be written. *)
Theorem missing_news_list_is_not_fatal :
  forall (local_date : Z -> string) (now : Z) (fs fs' : node)
         (structure structure' : Structure) (log : list event)
         (news_list_html template_content updated_content : string),
    get_project_structure local_date fs = (structure, log) ->
    structure <> [] ->
    generate_news_list_html structure = (news_list_html, structure') ->
    open_read fs "index_template.html" = Ok template_content ->
    replace_language_showcase
      (generate_language_showcase_html (get_existing_languages structure'))
      template_content = Ok updated_content ->
    Re.search news_list_re updated_content = None ->
    Re.parse_template 2 (backref "1" ++ news_list_html ++ backref "2")
      <> None ->
    open_write now fs "index.html" updated_content = Ok fs' ->
    replace_news_list news_list_html updated_content = Ok updated_content /\
    update_index_html local_date now fs =
      (true, fs',
       (log ++ [SuccessfullyUpdated (List.length structure')
                                    (count_articles structure')])%list).
Proof.
  intros local_date now fs fs' structure structure' log news_list_html
         template_content updated_content Hs Hne Hn Ht Hl Hm Hp Hw.
  assert (Hsub : replace_news_list news_list_html updated_content
                 = Ok updated_content).
  { unfold replace_news_list, re_sub, Re.sub.
    change (Re.groups news_list_re) with 2.
    destruct (Re.parse_template 2 _) as [t|]; [|congruence].
    cbn [of_option]. f_equal.
    now apply ReFacts.sub_from_unmatched. }
  split; [exact Hsub|].
  unfold update_index_html. rewrite Hs.
  destruct structure as [|g rest]; [congruence|].
  rewrite Hn, Ht. cbn [bind]. rewrite Hl. cbn [bind].
  rewrite Hsub. cbn [bind]. rewrite Hw. reflexivity.
Qed.

Lemma missing_news_list_is_not_fatal_witness :
  exists fs' log,
    update_index_html Sample.day_of Sample.run_time Sample.tree_without_list
    = (true, fs', log).
Proof.
  do 2 eexists.
  eapply (missing_news_list_is_not_fatal
            Sample.day_of Sample.run_time Sample.tree_without_list).
  - vm_compute. reflexivity.
  - discriminate.
  - vm_compute. reflexivity.
  - vm_compute. reflexivity.
  - vm_compute. reflexivity.
  - vm_compute. reflexivity.
  - vm_compute. discriminate.
  - vm_compute. reflexivity.
Defined.

(** C1 (as stated) fails: the template of this tree has no news-list
    region, yet the run returns success and [index.html] is written. *)
Lemma run_succeeds_without_news_list :
  Re.search news_list_re Sample.template_without_list = None /\
  exists fs' log,
    update_index_html Sample.day_of Sample.run_time Sample.tree_without_list
    = (true, fs', log) /\
    open_read Sample.tree_without_list "index.html"
    = Raise (IOError "index.html") /\
    exists written, open_read fs' "index.html" = Ok written.
Proof.
  split; [vm_compute; reflexivity|].
  do 2 eexists. split; [vm_compute; reflexivity|].
  split; [vm_compute; reflexivity|].
  eexists. vm_compute. reflexivity.
Qed.

(* ------------------------------------------------------------------ *)
(** ** What rendering does to the structure *)

Section Rendering.

Lemma insert_by_date_perm a l : Permutation (a :: l) (insert_by_date a l).
Proof.
  induction l as [|b l IH]; simpl; [apply Permutation_refl|].
  destruct (String.ltb (date a) (date b)); [|apply Permutation_refl].
  eapply perm_trans; [apply perm_swap | apply perm_skip, IH].
Qed.

Lemma sort_articles_perm l : Permutation l (sort_articles l).
Proof.
  induction l as [|a l IH]; simpl; [constructor|].
  eapply perm_trans; [apply perm_skip, IH | apply insert_by_date_perm].
Qed.

Lemma ltb_flip x y : String.ltb x y = true -> String.ltb y x = false.
Proof.
  unfold String.ltb. rewrite (String.compare_antisym y x).
  destruct (String.compare x y); simpl; congruence.
Qed.

Lemma insert_by_date_hd a b l :
  newest_first b a -> HdRel newest_first b l ->
  HdRel newest_first b (insert_by_date a l).
Proof.
  intros Hba Hl. destruct l as [|c l]; simpl; [now constructor|].
  destruct (String.ltb (date a) (date c)); constructor; [|exact Hba].
  now inversion Hl.
Qed.

Lemma insert_by_date_sorted a l :
  Sorted newest_first l -> Sorted newest_first (insert_by_date a l).
Proof.
  induction l as [|b l IH]; intro H; simpl; [repeat constructor|].
  inversion H as [|? ? Hs Hh]; subst.
  destruct (String.ltb (date a) (date b)) eqn:E.
  - constructor; [now apply IH|].
    apply insert_by_date_hd; [|exact Hh]. now apply ltb_flip.
  - constructor; [exact H | constructor; exact E].
Qed.

Lemma sort_articles_sorted l : Sorted newest_first (sort_articles l).
Proof.
  induction l as [|a l IH]; simpl; [constructor|].
  now apply insert_by_date_sorted.
Qed.

Lemma same_but_order_refl g : same_but_order g g.
Proof. repeat split; apply Permutation_refl. Qed.

Lemma same_but_order_trans g1 g2 g3 :
  same_but_order g1 g2 -> same_but_order g2 g3 -> same_but_order g1 g3.
Proof.
  intros (a1 & b1 & c1 & p1) (a2 & b2 & c2 & p2).
  repeat split; try congruence. eapply perm_trans; eassumption.
Qed.

Lemma reordered_refl s : reordered s s.
Proof.
  induction s as [|kv s IH]; constructor; [|exact IH].
  split; [reflexivity | apply same_but_order_refl].
Qed.

Lemma reordered_trans s1 s2 s3 :
  reordered s1 s2 -> reordered s2 s3 -> reordered s1 s3.
Proof.
  intro H; revert s3; induction H as [|kv1 kv2 s1 s2 [Hk Hg] _ IH];
    intros s3 H'; inversion H' as [|? kv3 ? s3' [Hk' Hg'] Hrest]; subst;
    constructor.
  - split; [congruence | eapply same_but_order_trans; eassumption].
  - now apply IH.
Qed.

Lemma reordered_keys s s' : reordered s s' -> map fst s' = map fst s.
Proof.
  induction 1 as [|kv kv' s s' [Hk _] _ IH]; simpl; [reflexivity|].
  now rewrite Hk, IH.
Qed.

Lemma dict_update_reordered k f d :
  (forall g, same_but_order g (f g)) -> reordered d (dict_update k f d).
Proof.
  intro Hf. induction d as [|[k0 g0] d IH]; simpl; [constructor|].
  destruct (k0 =? k).
  - constructor; [split; [reflexivity | apply Hf] | apply reordered_refl].
  - constructor; [split; [reflexivity | apply same_but_order_refl] | exact IH].
Qed.

Lemma dict_get_update key k f d :
  dict_get key (dict_update k f d)
  = if key =? k then option_map f (dict_get key d) else dict_get key d.
Proof.
  induction d as [|[k0 g0] d IH]; simpl.
  - now destruct (key =? k).
  - destruct (String.eqb_spec k0 k) as [->|Hk0]; simpl.
    + destruct (String.eqb_spec k key) as [->|Hk].
      * now rewrite String.eqb_refl.
      * destruct (String.eqb_spec key k); [congruence | reflexivity].
    + destruct (String.eqb_spec k0 key) as [->|Hk].
      * destruct (String.eqb_spec key k); [congruence | reflexivity].
      * exact IH.
Qed.

Lemma dict_get_key key d g : dict_get key d = Some g -> In key (map fst d).
Proof.
  induction d as [|[k0 g0] d IH]; simpl; [discriminate|].
  destruct (String.eqb_spec k0 key); auto.
Qed.

Lemma dict_update_found k f d g :
  dict_get k d = Some g -> same_but_order g (f g) ->
  reordered d (dict_update k f d).
Proof.
  intros Hg Hf. induction d as [|[k0 g0] d IH]; simpl in *; [constructor|].
  destruct (k0 =? k).
  - injection Hg as ->.
    constructor; [split; [reflexivity | exact Hf] | apply reordered_refl].
  - constructor; [split; [reflexivity | apply same_but_order_refl]|].
    apply IH, Hg.
Qed.

Lemma render_folder_reordered items s k :
  reordered s (snd (render_folder (items, s) k)).
Proof.
  unfold render_folder. destruct (dict_get k s) as [g|] eqn:E; simpl.
  - apply dict_update_found with (g := g); [exact E|].
    repeat split. apply sort_articles_perm.
  - apply reordered_refl.
Qed.

Lemma fold_render_reordered keys :
  forall items s, reordered s (snd (fold_left render_folder keys (items, s))).
Proof.
  induction keys as [|k keys IH]; intros items s; cbn [fold_left];
    [apply reordered_refl|].
  pose proof (render_folder_reordered items s k) as H.
  destruct (render_folder (items, s) k) as [items' s']. cbn [snd] in H.
  eapply reordered_trans; [exact H | apply IH].
Qed.

Lemma render_folder_sorts items s k :
  sorted_at (snd (render_folder (items, s) k)) k.
Proof.
  unfold render_folder, sorted_at.
  destruct (dict_get k s) as [g|] eqn:E; simpl; intros g' H.
  - rewrite dict_get_update, String.eqb_refl, E in H. simpl in H.
    injection H as <-. apply sort_articles_sorted.
  - congruence.
Qed.

Lemma render_folder_keeps_sorted items s k key :
  sorted_at s key -> sorted_at (snd (render_folder (items, s) k)) key.
Proof.
  intro Hs. destruct (String.eqb_spec key k) as [->|Hne];
    [apply render_folder_sorts|].
  unfold render_folder, sorted_at.
  destruct (dict_get k s) as [g|]; simpl; intros g' H; [|now apply Hs].
  rewrite dict_get_update in H.
  destruct (String.eqb_spec key k); [congruence | now apply Hs].
Qed.

Lemma fold_render_keeps_sorted keys key :
  forall items s,
    sorted_at s key ->
    sorted_at (snd (fold_left render_folder keys (items, s))) key.
Proof.
  induction keys as [|k keys IH]; intros items s Hs; cbn [fold_left];
    [exact Hs|].
  pose proof (render_folder_keeps_sorted items s k key Hs) as H.
  destruct (render_folder (items, s) k) as [items' s']. now apply IH.
Qed.

Lemma fold_render_sorts keys key :
  In key keys ->
  forall items s,
    sorted_at (snd (fold_left render_folder keys (items, s))) key.
Proof.
  induction keys as [|k keys IH]; intros Hin items s; cbn [fold_left];
    [contradiction|].
  destruct Hin as [->|Hin].
  - pose proof (render_folder_sorts items s key) as H.
    destruct (render_folder (items, s) key) as [items' s'].
    now apply fold_render_keeps_sorted.
  - destruct (render_folder (items, s) k) as [items' s']. now apply IH.
Qed.

Lemma insert_sorted_in x y l :
  In y (PyStr.insert_sorted x l) <-> y = x \/ In y l.
Proof.
  induction l as [|z l IH]; simpl; [intuition|].
  destruct (String.leb x z); simpl; [intuition|].
  rewrite IH. intuition.
Qed.

Lemma sorted_in y l : In y (PyStr.sorted l) <-> In y l.
Proof.
  induction l as [|x l IH]; simpl; [reflexivity|].
  rewrite insert_sorted_in, IH. intuition.
Qed.

End Rendering.

(** C5 (as it holds): rendering the news list leaves the keys of the
    structure and the language code, media name and folder path of every
    group as they were, but it does modify the article lists: each is
    reordered where it lives, newest first, keeping the same articles.
    (The language showcase takes the list of languages and returns text; it
    has no access to the structure.) *)
Theorem news_list_reorders_articles_only :
  forall structure : Structure,
    reordered structure (snd (generate_news_list_html structure)) /\
    (forall key g,
        dict_get key (snd (generate_news_list_html structure)) = Some g ->
        Sorted newest_first (articles g)).
Proof.
  intro structure. unfold generate_news_list_html.
  pose proof (fold_render_reordered (PyStr.sorted (map fst structure))
                                    [] structure) as Hr.
  pose proof (fun key Hin =>
                fold_render_sorts (PyStr.sorted (map fst structure)) key Hin
                                  [] structure) as Hs.
  destruct (fold_left render_folder (PyStr.sorted (map fst structure))
                      ([], structure)) as [items structure'].
  simpl in *. split; [exact Hr|].
  intros key g Hg. apply (Hs key); [|exact Hg].
  apply sorted_in. rewrite <- (reordered_keys _ _ Hr).
  eapply dict_get_key, Hg.
Qed.

Lemma news_list_reorders_articles_only_witness :
  dict_get "EN_BBC" (snd (generate_news_list_html Sample.oldest_first))
  = Some Sample.newest_first_group /\
  Sorted newest_first (articles Sample.newest_first_group).
Proof.
  split; [reflexivity|].
  exact (proj2 (news_list_reorders_articles_only Sample.oldest_first)
               "EN_BBC" Sample.newest_first_group eq_refl).
Defined.

(** C5 (as stated) fails: rendering this structure, whose articles stand
    oldest first, leaves it with the two articles exchanged. *)
Lemma rendering_reorders_the_structure :
  snd (generate_news_list_html Sample.oldest_first) <> Sample.oldest_first /\
  map (fun kv => map date (articles (snd kv)))
      (snd (generate_news_list_html Sample.oldest_first))
  = [["2024-02-01"; "2024-01-01"]].
Proof. split; [vm_compute; discriminate | vm_compute; reflexivity]. Qed.

(* ------------------------------------------------------------------ *)
(** ** Date of an article *)

Section DateSearch.
Import Re.

Lemma times_digits n p :
  forall prev pos s cs,
    digit_run n s = false ->
    match_at (times n Digit ++ p)%list prev pos s cs = None.
Proof.
  unfold times.
  induction n as [|n IH]; intros prev pos s cs H; [discriminate|].
  destruct s as [|c s]; [reflexivity|]. simpl in H |- *.
  destruct (PyStr.is_digit c); [now apply IH | reflexivity].
Qed.

Lemma times_digits_end n p :
  forall prev pos s cs,
    digit_run n s = true ->
    exists prev' rest,
      match_at (times n Digit ++ p)%list prev pos s cs
      = match_at p prev' (pos + n) rest cs.
Proof.
  unfold times.
  induction n as [|n IH]; intros prev pos s cs H.
  - exists prev, s. simpl. now rewrite Nat.add_0_r.
  - destruct s as [|c s]; [discriminate|]. simpl in H |- *.
    destruct (PyStr.is_digit c); [|discriminate].
    destruct (IH (Some c) (S pos) s cs H) as (prev' & rest & E).
    exists prev', rest. rewrite E. f_equal. lia.
Qed.

Lemma try_at_date prev pos s :
  try_at date_re prev pos s =
  if digit_run 8 s
  then Some {| m_start := pos; m_end := pos + 8;
               m_groups := [(1, (pos, pos + 8))] |}
  else None.
Proof.
  unfold try_at, date_re. cbn [app match_at].
  destruct (digit_run 8 s) eqn:E.
  - destruct (times_digits_end 8 [Close 1] prev pos s
                (open_group 1 pos no_captures) E) as (prev' & rest & ->).
    reflexivity.
  - now rewrite times_digits.
Qed.

Lemma substring_skip pre s n :
  substring (length pre) n (pre ++ s) = substring 0 n s.
Proof. induction pre as [|c pre IH]; simpl; [reflexivity | exact IH]. Qed.

Lemma search_date s :
  forall pre prev,
    option_map (fun m => mgroup (pre ++ s) m 1)
               (search_from date_re prev (length pre) s)
    = first_eight_digits s.
Proof.
  induction s as [|c s IH]; intros pre prev;
    cbn [search_from first_eight_digits]; rewrite try_at_date;
    destruct (digit_run 8 _) eqn:E.
  - discriminate.
  - reflexivity.
  - cbn [option_map mgroup assoc Nat.eqb m_groups].
    replace (length pre + 8 - length pre) with 8 by lia.
    now rewrite substring_skip.
  - specialize (IH (pre ++ String c EmptyString) (Some c)).
    rewrite str_app_assoc, str_length_app in IH. cbn [append length] in IH.
    rewrite Nat.add_1_r in IH. exact IH.
Qed.

Lemma date_from_filename_spec md_file :
  date_from_filename md_file =
  match first_eight_digits md_file with
  | Some date_str =>
      match strptime_Ymd date_str with
      | Some date_obj => Some (strftime_Y_m_d date_obj)
      | None => Some date_str
      end
  | None => None
  end.
Proof.
  unfold date_from_filename, search.
  rewrite <- (search_date md_file EmptyString None). cbn [append length].
  now destruct (search_from date_re None 0 md_file).
Qed.

End DateSearch.

(** C4 (as it holds): the date comes from the leftmost eight digits in a
    row of the file name.  If these are [20240115] the date is
    [2024-01-15]; if they are [99999999], which is no calendar date, the
    date is the raw [99999999]; and if the name has no eight digits in a
    row the date is the day of the file's modification time. *)
Theorem date_follows_first_eight_digits :
  forall (local_date : Z -> string) (fs : node) (file_path md_file : string),
    (first_eight_digits md_file = Some "20240115" ->
     extract_date local_date fs file_path md_file = Ok "2024-01-15") /\
    (first_eight_digits md_file = Some "99999999" ->
     extract_date local_date fs file_path md_file = Ok "99999999") /\
    (first_eight_digits md_file = None ->
     forall mtime : Z,
       getmtime fs file_path = Ok mtime ->
       extract_date local_date fs file_path md_file = Ok (local_date mtime)).
Proof.
  intros local_date fs file_path md_file.
  unfold extract_date. rewrite date_from_filename_spec.
  repeat split.
  - intros ->. reflexivity.
  - intros ->. reflexivity.
  - intros -> mtime ->. reflexivity.
Qed.

Lemma date_follows_first_eight_digits_witness :
  extract_date Sample.day_of Sample.tree_hidden
               "./en/bbc/story_20240115.md" "story_20240115.md"
  = Ok "2024-01-15" /\
  extract_date Sample.day_of Sample.tree_hidden
               "./en/bbc/99999999.md" "99999999.md"
  = Ok "99999999" /\
  extract_date Sample.day_of Sample.tree_hidden
               "./en/bbc/.draft.md" ".draft.md"
  = Ok (Sample.day_of 0%Z).
Proof.
  split; [|split].
  - exact (proj1 (date_follows_first_eight_digits
                    Sample.day_of Sample.tree_hidden
                    "./en/bbc/story_20240115.md" "story_20240115.md")
                 eq_refl).
  - exact (proj1 (proj2 (date_follows_first_eight_digits
                           Sample.day_of Sample.tree_hidden
                           "./en/bbc/99999999.md" "99999999.md"))
                 eq_refl).
  - exact (proj2 (proj2 (date_follows_first_eight_digits
                           Sample.day_of Sample.tree_hidden
                           "./en/bbc/.draft.md" ".draft.md"))
                 eq_refl 0%Z eq_refl).
Defined.

(** C4 (as stated) fails: a name may contain [20240115], or [99999999],
    after an earlier run of eight digits, and then the earlier run gives
    the date. *)
Lemma earlier_digits_give_the_date :
  PyStr.find "20240115" "19990101_20240115.md" = Some 9 /\
  extract_date Sample.day_of Sample.tree_hidden
               "./en/bbc/19990101_20240115.md" "19990101_20240115.md"
  = Ok "1999-01-01" /\
  PyStr.find "99999999" "20240115_99999999.md" = Some 9 /\
  extract_date Sample.day_of Sample.tree_hidden
               "./en/bbc/20240115_99999999.md" "20240115_99999999.md"
  = Ok "2024-01-15".
Proof. repeat split; vm_compute; reflexivity. Qed.

(* ------------------------------------------------------------------ *)
(** ** Keys of the structure *)

Section Keys.

Variable local_date : Z -> string.

Lemma fold_path_join ns :
  forall acc, fold_left path_join ns acc = acc ++ slashed ns.
Proof.
  induction ns as [|n ns IH]; intro acc; simpl.
  - now rewrite str_app_nil_r.
  - rewrite IH. unfold path_join. now rewrite !str_app_assoc.
Qed.

Lemma substring_full s : substring 0 (length s) s = s.
Proof. induction s as [|c s IH]; simpl; [reflexivity | now rewrite IH]. Qed.

Lemma split_free n : free_of "/" n = true -> PyStr.split "/" n = [n].
Proof.
  induction n as [|c n IH]; intro H; simpl in *; [reflexivity|].
  apply andb_true_iff in H as [Hc Hn].
  apply negb_true_iff in Hc. rewrite Hc, (IH Hn). reflexivity.
Qed.

Lemma split_app n s :
  free_of "/" n = true ->
  PyStr.split "/" (n ++ "/" ++ s) = n :: PyStr.split "/" s.
Proof.
  induction n as [|c n IH]; intro H; simpl in *; [reflexivity|].
  apply andb_true_iff in H as [Hc Hn].
  apply negb_true_iff in Hc. rewrite Hc, (IH Hn). reflexivity.
Qed.

Lemma split_slashed ns :
  forall n,
    Forall (fun x => entry_name_ok x = true) (n :: ns) ->
    PyStr.split "/" (n ++ slashed ns) = n :: ns.
Proof.
  induction ns as [|n' ns IH]; intros n H;
    inversion H as [|? ? Hn Hns]; subst;
    apply andb_true_iff in Hn as [_ Hn].
  - simpl. rewrite str_app_nil_r. now apply split_free.
  - change (slashed (n' :: ns)) with ("/" ++ (n' ++ slashed ns)).
    rewrite (split_app _ _ Hn). f_equal. now apply IH.
Qed.

(** Below the root, the path parts of a directory are the names that lead
    to it. *)
Lemma path_parts_under n ns :
  Forall (fun x => entry_name_ok x = true) (n :: ns) ->
  (under (n :: ns) =? ".") = false /\
  PyStr.split "/" (relpath (under (n :: ns))) = n :: ns.
Proof.
  intro H.
  assert (E : under (n :: ns) = String "." (String "/" (n ++ slashed ns))).
  { unfold under. cbn [fold_left]. rewrite fold_path_join.
    unfold path_join. now rewrite !str_app_assoc. }
  rewrite E. split; [reflexivity|].
  assert (Hp : forall x, prefix "./" (String "." (String "/" x)) = true)
    by (intros [|c x]; reflexivity).
  unfold relpath. rewrite Hp.
  cbn [length substring Nat.sub].
  rewrite Nat.sub_0_r, substring_full. now apply split_slashed.
Qed.

Lemma upper_nonempty s :
  s <> EmptyString -> exists c u, PyStr.upper s = String c u.
Proof. destruct s as [|c s]; [congruence|]. intros _. simpl. eauto. Qed.

Lemma name_nonempty n : entry_name_ok n = true -> n <> EmptyString.
Proof.
  unfold entry_name_ok. intros H ->. discriminate.
Qed.

(** On names of entries the classifier answers nothing at all, or a
    language code and a media name that are both non-empty. *)
Lemma classify_names ns :
  Forall (fun x => entry_name_ok x = true) ns ->
  get_language_info_from_path ns = (None, None) \/
  exists c l c' m,
    get_language_info_from_path ns
    = (Some (String c l), Some (String c' m)).
Proof.
  intro H. unfold get_language_info_from_path, item.
  destruct ns as [|a [|b [|d r]]]; simpl; auto; right.
  - rewrite andb_false_r.
    inversion H as [|? ? Ha Hr1]; inversion Hr1 as [|? ? Hb _]; subst.
    destruct (upper_nonempty a (name_nonempty _ Ha)) as (c & l & ->).
    destruct (upper_nonempty b (name_nonempty _ Hb)) as (c' & m & ->).
    eauto.
  - inversion H as [|? ? Ha Hr1]; inversion Hr1 as [|? ? Hb Hr2];
      inversion Hr2 as [|? ? Hd _]; subst.
    destruct (upper_nonempty a (name_nonempty _ Ha)) as (ca & la & ->).
    destruct (upper_nonempty b (name_nonempty _ Hb)) as (cb & lb & ->).
    destruct (upper_nonempty d (name_nonempty _ Hd)) as (cd & ld & ->).
    destruct (a =? "news"); simpl; eauto.
Qed.

Lemma dict_update_composite k f d :
  (forall g, language_code (f g) = language_code g /\
             media_name (f g) = media_name g) ->
  Forall composite d -> Forall composite (dict_update k f d).
Proof.
  intros Hf H. induction H as [|[k0 g0] d Hc Hd IH]; simpl; [constructor|].
  destruct (k0 =? k); constructor; auto.
  destruct Hc as (m & Hm & Hk). simpl in Hm, Hk.
  destruct (Hf g0) as [Hl Hm']. exists m. simpl. now rewrite Hl, Hm'.
Qed.

Lemma process_file_composite fs root key st md_file :
  Forall composite (fst st) ->
  Forall composite (fst (process_file local_date fs root key st md_file)).
Proof.
  destruct st as [structure log]. unfold process_file. simpl. intro H.
  destruct (read_article local_date fs (path_join root md_file) md_file);
    simpl; [|exact H].
  apply dict_update_composite; [|exact H]. intro g. split; reflexivity.
Qed.

Lemma fold_process_composite fs root key md_files :
  forall st,
    Forall composite (fst st) ->
    Forall composite
      (fst (fold_left (process_file local_date fs root key) md_files st)).
Proof.
  induction md_files as [|f md_files IH]; intros st H; cbn [fold_left];
    [exact H|].
  apply IH. now apply process_file_composite.
Qed.

Lemma visit_composite fs st ns dirs files :
  Forall (fun x => entry_name_ok x = true) ns ->
  Forall composite (fst st) ->
  Forall composite (fst (visit local_date fs st (under ns, dirs, files))).
Proof.
  intros Hns H. unfold visit.
  destruct ns as [|n ns]; [exact H|].
  destruct (path_parts_under n ns Hns) as [-> ->].
  destruct (classify_names (n :: ns) Hns) as [->|(c & l & c' & m & ->)].
  - now destruct (filter is_md_file files).
  - destruct (filter is_md_file files) as [|f md_files] eqn:E; [exact H|].
    destruct st as [structure log]. rewrite <- E.
    apply fold_process_composite. simpl in H |- *.
    destruct (dict_mem _ structure); simpl; [exact H|].
    apply Forall_app. split; [exact H|].
    constructor; [|constructor]. exists (String c' m). split; reflexivity.
Qed.

(** Every directory the walk yields is reached through names of entries. *)
Lemma walk_roots keep n :
  forall ns,
    names_ok n = true ->
    Forall (fun x => entry_name_ok x = true) ns ->
    Forall (fun y => exists ns' dirs files,
                y = (under ns', dirs, files) /\
                Forall (fun x => entry_name_ok x = true) ns')
           (os_walk keep (under ns) n).
Proof.
  induction n as [data mtime | es IH] using node_ind; intros ns Hok Hns;
    [constructor|].
  cbn [os_walk]. constructor; [now eauto|].
  cbn [names_ok] in Hok.
  induction es as [|[name child] es IHes]; [constructor|].
  inversion IH as [|? ? Hchild Hrest]; subst. cbn [snd] in Hchild.
  apply andb_true_iff in Hok as [Hok Hes].
  apply andb_true_iff in Hok as [Hname Hc].
  specialize (IHes Hrest Hes).
  destruct child as [data mtime | sub]; [exact IHes|].
  destruct (keep name); [|exact IHes].
  apply Forall_app. split; [|exact IHes].
  replace (path_join (under ns) name) with (under (ns ++ [name]))
    by (unfold under; now rewrite fold_left_app).
  apply Hchild; [exact Hc|].
  apply Forall_app. split; [exact Hns | now constructor].
Qed.

Lemma fold_visit_composite fs ys :
  forall st,
    Forall (fun y => exists ns' dirs files,
                y = (under ns', dirs, files) /\
                Forall (fun x => entry_name_ok x = true) ns') ys ->
    Forall composite (fst st) ->
    Forall composite (fst (fold_left (visit local_date fs) ys st)).
Proof.
  induction ys as [|y ys IH]; intros st Hys H; cbn [fold_left]; [exact H|].
  inversion Hys as [|? ? (ns' & dirs & files & -> & Hns) Hrest]; subst.
  apply IH; [exact Hrest|]. now apply visit_composite.
Qed.

Lemma structure_composite fs :
  names_ok fs = true ->
  Forall composite (fst (get_project_structure local_date fs)).
Proof.
  intro H. unfold get_project_structure.
  apply fold_visit_composite; [|constructor].
  apply (walk_roots not_hidden fs [] H). constructor.
Qed.

End Keys.

(** C10: the classifier returns a language code and a media name together
    or neither of them; and in the structure built from a tree of named
    entries every group has a media name and is stored under the composite
    key [LANG_MEDIA], never under the bare language code. *)
Theorem groups_carry_language_and_media :
  (forall segments : list string,
      match get_language_info_from_path segments with
      | (Some _, Some _) | (None, None) => True
      | _ => False
      end) /\
  (forall (local_date : Z -> string) (fs : node),
      names_ok fs = true ->
      forall (key : string) (g : group),
        In (key, g) (fst (get_project_structure local_date fs)) ->
        exists m,
          media_name g = Some m /\
          key = language_code g ++ "_" ++ m /\
          key <> language_code g).
Proof.
  split.
  - intro segments. unfold get_language_info_from_path.
    destruct (2 <=? List.length segments)%nat; [|exact I].
    now destruct (_ && _).
  - intros local_date fs Hok key g Hin.
    pose proof (structure_composite local_date fs Hok) as H.
    rewrite Forall_forall in H. destruct (H _ Hin) as (m & Hm & Hk).
    simpl in Hm, Hk. exists m. repeat split; auto.
    intro E. rewrite Hk in E at 1. apply (f_equal length) in E.
    rewrite str_length_app in E. simpl in E. lia.
Qed.

Lemma groups_carry_language_and_media_witness :
  names_ok Sample.tree_hidden = true /\
  In ("EN_BBC", Sample.draft_group)
     (fst (get_project_structure Sample.day_of Sample.tree_hidden)) /\
  exists m,
    media_name Sample.draft_group = Some m /\
    "EN_BBC" = language_code Sample.draft_group ++ "_" ++ m /\
    "EN_BBC" <> language_code Sample.draft_group.
Proof.
  split; [reflexivity|]. split; [left; reflexivity|].
  exact (proj2 groups_carry_language_and_media
               Sample.day_of Sample.tree_hidden eq_refl
               "EN_BBC" Sample.draft_group (or_introl eq_refl)).
Defined.

(* ================================================================== *)
(** * Further properties *)

(* ------------------------------------------------------------------ *)
(** ** The list of languages *)

Section Languages.

Lemma existsb_eqb_in x l : existsb (String.eqb x) l = true <-> In x l.
Proof.
  rewrite existsb_exists. split.
  - intros (y & Hy & E). apply String.eqb_eq in E. now subst.
  - intro H. exists x. split; [exact H | apply String.eqb_refl].
Qed.

Lemma dedup_in x l : In x (PyStr.dedup l) <-> In x l.
Proof.
  induction l as [|y l IH]; simpl; [reflexivity|].
  destruct (existsb (String.eqb y) l) eqn:E.
  - rewrite IH. apply existsb_eqb_in in E. split; [auto|].
    intros [->|H]; auto.
  - simpl. rewrite IH. reflexivity.
Qed.

Lemma dedup_nodup l : NoDup (PyStr.dedup l).
Proof.
  induction l as [|y l IH]; simpl; [constructor|].
  destruct (existsb (String.eqb y) l) eqn:E; [exact IH|].
  constructor; [|exact IH].
  rewrite dedup_in. intro H. apply existsb_eqb_in in H. congruence.
Qed.

Lemma insert_sorted_perm x l : Permutation (x :: l) (PyStr.insert_sorted x l).
Proof.
  induction l as [|y l IH]; simpl; [apply Permutation_refl|].
  destruct (String.leb x y); [apply Permutation_refl|].
  eapply perm_trans; [apply perm_swap | apply perm_skip, IH].
Qed.

Lemma sorted_perm l : Permutation l (PyStr.sorted l).
Proof.
  induction l as [|x l IH]; simpl; [constructor|].
  eapply perm_trans; [apply perm_skip, IH | apply insert_sorted_perm].
Qed.

Lemma insert_sorted_ascending x l :
  ascending l -> ascending (PyStr.insert_sorted x l).
Proof.
  unfold ascending.
  induction l as [|y l IH]; intro H; simpl; [repeat constructor|].
  inversion H as [|? ? Hs Hh]; subst.
  destruct (String.leb x y) eqn:E.
  - constructor; [exact H | constructor; exact E].
  - constructor; [now apply IH|].
    assert (Hyx : String.leb y x = true)
      by (destruct (String.leb_total x y); congruence).
    destruct l as [|z l]; simpl; [now constructor|].
    destruct (String.leb x z); constructor; [exact Hyx|].
    now inversion Hh.
Qed.

Lemma sorted_ascending l : ascending (PyStr.sorted l).
Proof.
  induction l as [|x l IH]; simpl; [constructor|].
  now apply insert_sorted_ascending.
Qed.

End Languages.

(** X1: the list of languages holds exactly the language codes of the
    groups of the structure, each once, in ascending order. *)
Theorem existing_languages_distinct_ascending :
  forall structure : Structure,
    (forall x : string,
        In x (get_existing_languages structure) <->
        exists key g, In (key, g) structure /\ language_code g = x) /\
    NoDup (get_existing_languages structure) /\
    ascending (get_existing_languages structure).
Proof.
  intro structure. unfold get_existing_languages. repeat split.
  - rewrite sorted_in, dedup_in, in_map_iff.
    intros ([key g] & E & Hin). now exists key, g.
  - intros (key & g & Hin & E).
    rewrite sorted_in, dedup_in, in_map_iff. now exists (key, g).
  - eapply Permutation_NoDup; [apply sorted_perm | apply dedup_nodup].
  - apply sorted_ascending.
Qed.

(** X2: a structure that is not empty has a language, and its showcase
    fragment is not empty: in a run that gets as far as the template the
    showcase region is always given the fragment between its two tags, and
    never the empty replacement. *)
Theorem showcase_of_nonempty_structure :
  forall structure : Structure,
    structure <> [] ->
    get_existing_languages structure <> [] /\
    exists rest,
      generate_language_showcase_html (get_existing_languages structure)
      = String PyStr.LF rest.
Proof.
  intros structure Hne.
  assert (H : get_existing_languages structure <> []).
  { destruct structure as [|[key g] structure]; [congruence|].
    intro E.
    assert (Hin : In (language_code g)
                     (get_existing_languages ((key, g) :: structure))).
    { unfold get_existing_languages.
      rewrite sorted_in, dedup_in. simpl. auto. }
    rewrite E in Hin. contradiction. }
  split; [exact H|].
  destruct (get_existing_languages structure) as [|x l]; [congruence|].
  eexists. reflexivity.
Qed.

Lemma showcase_of_nonempty_structure_witness :
  get_existing_languages Sample.oldest_first <> [] /\
  exists rest,
    generate_language_showcase_html (get_existing_languages Sample.oldest_first)
    = String PyStr.LF rest.
Proof.
  apply (showcase_of_nonempty_structure Sample.oldest_first). discriminate.
Defined.

(* ------------------------------------------------------------------ *)
(** ** Invariants of the structure *)

Section Invariants.

Variable local_date : Z -> string.
Variable fs : node.

(** What one turn of the walk does: nothing, or it makes sure of the group
    of the folder and reads the markdown files of the folder into it. *)
Lemma visit_cases st y :
  visit local_date fs st y = st \/
  exists root dirs files c l media md_files,
    y = (root, dirs, files) /\
    get_language_info_from_path (PyStr.split "/" (relpath root))
    = (Some (String c l), media) /\
    md_files = filter is_md_file files /\
    visit local_date fs st y
    = fold_left
        (process_file local_date fs root (folder_key_of (String c l) media))
        md_files
        (ensure_group (folder_key_of (String c l) media)
                      (new_group (String c l) media (relpath root)) (fst st),
         snd st).
Proof.
  destruct y as [[root dirs] files]. unfold visit.
  destruct (root =? "."); [now left|].
  destruct (get_language_info_from_path (PyStr.split "/" (relpath root)))
    as [lang media] eqn:E.
  destruct (filter is_md_file files) as [|f md_files] eqn:Ef; [now left|].
  destruct lang as [[|c l]|]; [now left | | now left].
  right. exists root, dirs, files, c, l, media, (f :: md_files).
  destruct st as [structure log]. rewrite Ef. repeat split. exact E.
Qed.

(** A property of the structure that holds of the empty one and is kept
    when a group is entered and when an article is appended holds of the
    structure the walk builds. *)
Lemma structure_invariant (P : Structure -> Prop) :
  P [] ->
  (forall s root c l media,
      get_language_info_from_path (PyStr.split "/" (relpath root))
      = (Some (String c l), media) ->
      P s ->
      P (ensure_group (folder_key_of (String c l) media)
                      (new_group (String c l) media (relpath root)) s)) ->
  (forall s root key md_file a,
      is_md_file md_file = true ->
      read_article local_date fs (path_join root md_file) md_file = Ok a ->
      P s -> P (dict_update key (append_article a) s)) ->
  P (fst (get_project_structure local_date fs)).
Proof.
  intros H0 Hg Ha. unfold get_project_structure.
  assert (Hloop : forall root key md_files st,
             Forall (fun f => is_md_file f = true) md_files ->
             P (fst st) ->
             P (fst (fold_left (process_file local_date fs root key)
                               md_files st))).
  { intros root key md_files.
    induction md_files as [|f md_files IH]; intros st Hf Hst; [exact Hst|].
    inversion Hf as [|? ? Hmd Hrest]; subst. cbn [fold_left].
    apply IH; [exact Hrest|].
    destruct st as [structure log]. unfold process_file.
    destruct (read_article local_date fs (path_join root f) f) as [a|e] eqn:E;
      [|exact Hst].
    now apply (Ha structure root key f a). }
  assert (Hall : forall ys st,
             P (fst st) -> P (fst (fold_left (visit local_date fs) ys st))).
  { induction ys as [|y ys IH]; intros st Hst; [exact Hst|].
    cbn [fold_left]. apply IH.
    destruct (visit_cases st y)
      as [->|(root & dirs & files & c & l & media & md_files
              & -> & Ec & Emd & ->)]; [exact Hst|].
    apply Hloop.
    - subst md_files. apply Forall_forall. intros f Hin.
      now apply filter_In in Hin.
    - now apply Hg. }
  now apply Hall.
Qed.

Lemma dict_mem_in key s : dict_mem key s = true <-> In key (map fst s).
Proof.
  unfold dict_mem. induction s as [|[k g] s IH]; simpl.
  - split; [discriminate | contradiction].
  - destruct (String.eqb_spec k key) as [->|Hne].
    + split; auto.
    + rewrite IH. split; [auto | intros [E|H]; [congruence | exact H]].
Qed.

Lemma dict_update_keys key f s : map fst (dict_update key f s) = map fst s.
Proof.
  induction s as [|[k g] s IH]; simpl; [reflexivity|].
  destruct (k =? key); simpl; [reflexivity | now rewrite IH].
Qed.

Lemma dict_get_in key g s :
  NoDup (map fst s) -> In (key, g) s -> dict_get key s = Some g.
Proof.
  induction s as [|[k g0] s IH]; simpl; intros Hnd Hin; [contradiction|].
  inversion Hnd as [|? ? Hk Hrest]; subst.
  destruct Hin as [E|Hin].
  - injection E as -> ->. now rewrite String.eqb_refl.
  - destruct (String.eqb_spec k key) as [->|Hne]; [|now apply IH].
    exfalso. apply Hk. apply in_map_iff. now exists (key, g).
Qed.

Lemma keys_unique : NoDup (map fst (fst (get_project_structure local_date fs))).
Proof.
  apply (structure_invariant (fun s => NoDup (map fst s))).
  - constructor.
  - intros s root c l media _ Hs. unfold ensure_group.
    destruct (dict_mem _ s) eqn:E; simpl; [exact Hs|].
    rewrite map_app. simpl.
    apply NoDup_app; [exact Hs | repeat constructor; simpl; tauto |].
    intros x Hx [<-|[]].
    apply dict_mem_in in Hx. congruence.
  - intros s root key md_file a _ _ Hs. now rewrite dict_update_keys.
Qed.

Lemma dict_update_forall (Q : string * group -> Prop) key f s :
  (forall k g, Q (k, g) -> Q (k, f g)) ->
  Forall Q s -> Forall Q (dict_update key f s).
Proof.
  intros Hf H. induction H as [|[k g] s Hq Hs IH]; simpl; [constructor|].
  destruct (k =? key); constructor; auto.
Qed.

Lemma groups_entered :
  Forall entered (fst (get_project_structure local_date fs)).
Proof.
  apply (structure_invariant (Forall entered)).
  - constructor.
  - intros s root c l media Ec Hs. unfold ensure_group.
    destruct (dict_mem _ s); simpl; [exact Hs|].
    apply Forall_app. split; [exact Hs|].
    constructor; [|constructor].
    split; [|reflexivity]. exists c, l. simpl. split; [reflexivity | exact Ec].
  - intros s root key md_file a _ _ Hs.
    apply dict_update_forall; [|exact Hs].
    intros k g H. exact H.
Qed.

Lemma truncate_summary_length raw : length (truncate_summary raw) <= 153.
Proof.
  unfold truncate_summary, PyStr.take.
  destruct (150 <? length raw)%nat eqn:E.
  - rewrite str_length_app, length_substring0.
    change (length "...") with 3. lia.
  - apply Nat.ltb_ge in E. lia.
Qed.

Lemma read_article_ok root md_file a :
  is_md_file md_file = true ->
  read_article local_date fs (path_join root md_file) md_file = Ok a ->
  article_ok a.
Proof.
  intros Hmd. unfold read_article.
  destruct (open_read fs (path_join root md_file)) as [content|e];
    [|discriminate].
  cbn [bind].
  destruct (extract_date local_date fs (path_join root md_file) md_file)
    as [d|e]; [|discriminate].
  cbn [bind]. intro E. injection E as <-.
  repeat split; simpl; [exact Hmd | now exists root|].
  apply truncate_summary_length.
Qed.

Lemma articles_ok :
  Forall (fun kv => Forall article_ok (articles (snd kv)))
         (fst (get_project_structure local_date fs)).
Proof.
  apply (structure_invariant
           (Forall (fun kv => Forall article_ok (articles (snd kv))))).
  - constructor.
  - intros s root c l media _ Hs. unfold ensure_group.
    destruct (dict_mem _ s); simpl; [exact Hs|].
    apply Forall_app. split; [exact Hs|]. repeat constructor.
  - intros s root key md_file a Hmd Hr Hs.
    apply dict_update_forall; [|exact Hs].
    intros k g H. simpl in *. apply Forall_app. split; [exact H|].
    constructor; [|constructor]. eapply read_article_ok; eassumption.
Qed.

End Invariants.

(** X3: the keys of the structure the walk builds are pairwise distinct,
    and looking a key up gives the group entered under it. *)
Theorem keys_are_unique :
  forall (local_date : Z -> string) (fs : node),
    NoDup (map fst (fst (get_project_structure local_date fs))) /\
    forall key g,
      In (key, g) (fst (get_project_structure local_date fs)) ->
      dict_get key (fst (get_project_structure local_date fs)) = Some g.
Proof.
  intros local_date fs. split; [apply keys_unique|].
  intros key g Hin. apply dict_get_in; [apply keys_unique | exact Hin].
Qed.

Lemma keys_are_unique_witness :
  dict_get "EN_BBC"
           (fst (get_project_structure Sample.day_of Sample.tree_hidden))
  = Some Sample.draft_group.
Proof.
  exact (proj2 (keys_are_unique Sample.day_of Sample.tree_hidden)
               "EN_BBC" Sample.draft_group (or_introl eq_refl)).
Defined.

Section UpperCase.

Lemma upper_char_idem c :
  PyStr.upper_char (PyStr.upper_char c) = PyStr.upper_char c.
Proof. destruct c as [[] [] [] [] [] [] [] []]; reflexivity. Qed.

Lemma upper_idem s : PyStr.upper (PyStr.upper s) = PyStr.upper s.
Proof.
  induction s as [|c s IH]; simpl; [reflexivity|].
  now rewrite upper_char_idem, IH.
Qed.

Lemma classifier_answer parts lang media :
  get_language_info_from_path parts = (Some lang, media) ->
  2 <= List.length parts /\
  PyStr.upper lang = lang /\
  forall m, media = Some m -> PyStr.upper m = m.
Proof.
  unfold get_language_info_from_path.
  destruct (2 <=? List.length parts)%nat eqn:E; [|discriminate].
  apply Nat.leb_le in E. intro H. split; [exact E|].
  destruct (_ && _); injection H as <- <-;
    (split; [apply upper_idem | intros m Hm; injection Hm as <-;
                                apply upper_idem]).
Qed.

End UpperCase.

(** X4: every group of the structure records what the classifier answers
    for its folder path: that path has at least two segments, the language
    code is not empty, language code and media name are in upper case, and
    the key is the language code alone or language code, underscore and
    media name. *)
Theorem groups_mirror_their_folder :
  forall (local_date : Z -> string) (fs : node) (key : string) (g : group),
    In (key, g) (fst (get_project_structure local_date fs)) ->
    get_language_info_from_path (PyStr.split "/" (folder_path g))
    = (Some (language_code g), media_name g) /\
    2 <= List.length (PyStr.split "/" (folder_path g)) /\
    language_code g <> EmptyString /\
    PyStr.upper (language_code g) = language_code g /\
    (forall m, media_name g = Some m -> PyStr.upper m = m) /\
    key = folder_key_of (language_code g) (media_name g).
Proof.
  intros local_date fs key g Hin.
  pose proof (groups_entered local_date fs) as H.
  rewrite Forall_forall in H.
  destruct (H _ Hin) as [(c & l & El & Ec) Hk]. simpl in El, Ec, Hk.
  destruct (classifier_answer _ _ _ Ec) as (Hlen & Hu & Hm).
  repeat split; auto. rewrite El. discriminate.
Qed.

Lemma groups_mirror_their_folder_witness :
  In ("EN_BBC", Sample.draft_group)
     (fst (get_project_structure Sample.day_of Sample.tree_hidden)) /\
  get_language_info_from_path
    (PyStr.split "/" (folder_path Sample.draft_group))
  = (Some "EN", Some "BBC").
Proof.
  split; [left; reflexivity|].
  exact (proj1 (groups_mirror_their_folder
                  Sample.day_of Sample.tree_hidden
                  "EN_BBC" Sample.draft_group (or_introl eq_refl))).
Defined.

(** X5: every article of the structure comes from a file whose name ends
    in [.md] and is not [README.md]; its path is a directory, a separator
    and that name; and its summary has at most 153 characters. *)
Theorem articles_come_from_markdown_files :
  forall (local_date : Z -> string) (fs : node)
         (key : string) (g : group) (a : article),
    In (key, g) (fst (get_project_structure local_date fs)) ->
    In a (articles g) ->
    PyStr.endswith ".md" (filename a) = true /\
    filename a <> "README.md" /\
    (exists root, filepath a = root ++ "/" ++ filename a) /\
    length (summary a) <= 153.
Proof.
  intros local_date fs key g a Hg Ha.
  pose proof (articles_ok local_date fs) as H.
  rewrite Forall_forall in H. specialize (H _ Hg). simpl in H.
  rewrite Forall_forall in H. destruct (H _ Ha) as (Hmd & Hp & Hs).
  unfold is_md_file in Hmd. apply andb_true_iff in Hmd as [He Hr].
  repeat split; auto.
  intro E. rewrite E in Hr. discriminate.
Qed.

Lemma articles_come_from_markdown_files_witness :
  PyStr.endswith ".md" ".draft.md" = true /\
  ".draft.md" <> "README.md" /\
  (exists root, "./en/bbc/.draft.md" = root ++ "/" ++ ".draft.md") /\
  length "Not ready." <= 153.
Proof.
  exact (articles_come_from_markdown_files
           Sample.day_of Sample.tree_hidden "EN_BBC" Sample.draft_group
           {| filename := ".draft.md"; title := "Draft";
              date := "2024-06-01"; summary := "Not ready.";
              filepath := "./en/bbc/.draft.md" |}
           (or_introl eq_refl) (or_introl eq_refl)).
Defined.

(* ------------------------------------------------------------------ *)
(** ** One article or one error line per file *)

Section FileLoop.

Variable local_date : Z -> string.
Variable fs : node.

Lemma count_articles_append key a s :
  dict_mem key s = true ->
  count_articles (dict_update key (append_article a) s)
  = S (count_articles s).
Proof.
  unfold dict_mem, count_articles.
  induction s as [|[k g] s IH]; simpl; [discriminate|].
  destruct (k =? key); simpl.
  - intros _. rewrite List.length_app. simpl. lia.
  - intro H. rewrite (IH H). lia.
Qed.

Lemma dict_mem_update key k f s :
  dict_mem key (dict_update k f s) = dict_mem key s.
Proof.
  unfold dict_mem. rewrite dict_get_update.
  destruct (key =? k); [|reflexivity]. now destruct (dict_get key s).
Qed.

Lemma process_file_counts root key st md_file :
  dict_mem key (fst st) = true ->
  let st' := process_file local_date fs root key st md_file in
  dict_mem key (fst st') = true /\
  count_articles (fst st') + List.length (snd st')
  = S (count_articles (fst st) + List.length (snd st)).
Proof.
  destruct st as [s log]. unfold process_file. simpl. intro H.
  destruct (read_article local_date fs (path_join root md_file) md_file);
    simpl.
  - rewrite dict_mem_update, count_articles_append by exact H. auto.
  - split; [exact H|]. rewrite List.length_app. simpl. lia.
Qed.

End FileLoop.

(** X6: the loop over the markdown files of a folder whose group is in the
    structure accounts for every file: each one adds exactly one article to
    the structure or exactly one error line to the output, so that articles
    and error lines together grow by the number of files. *)
Theorem each_file_gives_article_or_error :
  forall (local_date : Z -> string) (fs : node) (root key : string)
         (md_files : list string) (structure : Structure) (log : list event),
    dict_mem key structure = true ->
    let st' := fold_left (process_file local_date fs root key) md_files
                         (structure, log) in
    count_articles (fst st') + List.length (snd st')
    = count_articles structure + List.length log + List.length md_files.
Proof.
  intros local_date fs root key md_files.
  induction md_files as [|f md_files IH]; intros structure log H;
    cbn [fold_left]; [simpl; lia|].
  destruct (process_file_counts local_date fs root key (structure, log) f H)
    as [Hm Hc]. cbv zeta in Hm, Hc.
  destruct (process_file local_date fs root key (structure, log) f)
    as [s1 log1]. cbn [fst snd] in Hm, Hc.
  specialize (IH s1 log1 Hm). cbv zeta in IH |- *. rewrite IH.
  cbn [fst snd List.length] in Hc |- *. lia.
Qed.

Lemma each_file_gives_article_or_error_witness :
  let st' :=
    fold_left (process_file Sample.day_of Sample.tree_md "./news/en/bbc"
                            "EN_BBC")
              ["20240301_notes.md.md"; "missing.md"]
              (Sample.oldest_first, []) in
  count_articles (fst st') + List.length (snd st') = 2 + 0 + 2.
Proof.
  exact (each_file_gives_article_or_error
           Sample.day_of Sample.tree_md "./news/en/bbc" "EN_BBC"
           ["20240301_notes.md.md"; "missing.md"] Sample.oldest_first []
           eq_refl).
Defined.

(* ------------------------------------------------------------------ *)
(** ** Directories the walk visits *)




(* ------------------------------------------------------------------ *)
(** ** The news list as a function of the structure *)

Section NewsList.

Lemma sort_sorted l : Sorted newest_first l -> sort_articles l = l.
Proof.
  induction l as [|a l IH]; intro H; [reflexivity|].
  inversion H as [|? ? Hs Hh]; subst. simpl. rewrite (IH Hs).
  destruct l as [|b l]; [reflexivity|]. simpl.
  inversion Hh as [|? ? Hab]; subst. unfold newest_first in Hab.
  now rewrite Hab.
Qed.

Lemma sort_idem l : sort_articles (sort_articles l) = sort_articles l.
Proof. apply sort_sorted, sort_articles_sorted. Qed.

Lemma render_folder_shown items s k key :
  shown (snd (render_folder (items, s) k)) key = shown s key.
Proof.
  unfold render_folder. destruct (dict_get k s) as [g|] eqn:E;
    [|reflexivity].
  cbn [snd]. unfold shown. rewrite dict_get_update.
  destruct (String.eqb_spec key k) as [->|Hne]; [|reflexivity].
  rewrite E. simpl. now rewrite sort_idem.
Qed.

Lemma render_folder_items items s k :
  fst (render_folder (items, s) k) = (items ++ shown_items (shown s k))%list.
Proof.
  unfold render_folder, shown. destruct (dict_get k s) as [g|]; simpl;
    [reflexivity | now rewrite List.app_nil_r].
Qed.

Lemma fold_render_shown keys key :
  forall items s,
    shown (snd (fold_left render_folder keys (items, s))) key = shown s key.
Proof.
  induction keys as [|k keys IH]; intros items s; cbn [fold_left];
    [reflexivity|].
  pose proof (render_folder_shown items s k key) as H.
  destruct (render_folder (items, s) k) as [items' s']. cbn [snd] in H.
  now rewrite IH.
Qed.

Lemma fold_render_items keys :
  forall items s,
    fst (fold_left render_folder keys (items, s))
    = (items ++ flat_map (fun k => shown_items (shown s k)) keys)%list.
Proof.
  induction keys as [|k keys IH]; intros items s; cbn [fold_left flat_map];
    [now rewrite List.app_nil_r|].
  pose proof (render_folder_items items s k) as Hi.
  pose proof (fun key => render_folder_shown items s k key) as Hs.
  destruct (render_folder (items, s) k) as [items' s']. cbn [fst snd] in *.
  rewrite IH, Hi, <- List.app_assoc. f_equal. f_equal.
  apply flat_map_ext. intro key. now rewrite Hs.
Qed.

Lemma set_articles_same g : set_articles (articles g) g = g.
Proof. now destruct g. Qed.

Lemma dict_update_same k f s g :
  dict_get k s = Some g -> f g = g -> dict_update k f s = s.
Proof.
  intros Hg Hf. induction s as [|[k0 g0] s IH]; simpl in *; [reflexivity|].
  destruct (k0 =? k).
  - injection Hg as ->. now rewrite Hf.
  - now rewrite IH.
Qed.

Lemma fold_render_fixed keys :
  forall items s,
    (forall key, sorted_at s key) ->
    snd (fold_left render_folder keys (items, s)) = s.
Proof.
  induction keys as [|k keys IH]; intros items s Hs; cbn [fold_left];
    [reflexivity|].
  assert (E : snd (render_folder (items, s) k) = s).
  { unfold render_folder. destruct (dict_get k s) as [g|] eqn:Eg;
      [|reflexivity].
    cbn [snd]. apply dict_update_same with (g := g); [exact Eg|].
    rewrite (sort_sorted _ (Hs k g Eg)). apply set_articles_same. }
  destruct (render_folder (items, s) k) as [items' s']. cbn [snd] in E.
  subst s'. now apply IH.
Qed.

Lemma rendered_sorted s key :
  sorted_at (snd (fold_left render_folder (PyStr.sorted (map fst s)) ([], s)))
            key.
Proof.
  intros g Hg.
  pose proof (fold_render_reordered (PyStr.sorted (map fst s)) [] s) as Hr.
  refine (fold_render_sorts (PyStr.sorted (map fst s)) key _ [] s g Hg).
  apply sorted_in. rewrite <- (reordered_keys _ _ Hr).
  eapply dict_get_key, Hg.
Qed.

End NewsList.

(** X8: the text of the news list is a function of the structure as it
    was handed over: the items of the folders in ascending order of their
    keys, and within a folder one item per article, newest first.  That
    the loop sorts the lists of the folders it has passed does not change
    what it shows of the folders still to come. *)
Theorem news_list_shows_sorted_folders :
  forall structure : Structure,
    fst (generate_news_list_html structure)
    = PyStr.join PyStr.lf
        (flat_map (fun key => shown_items (shown structure key))
                  (PyStr.sorted (map fst structure))).
Proof.
  intro structure. unfold generate_news_list_html.
  pose proof (fold_render_items (PyStr.sorted (map fst structure))
                                [] structure) as H.
  destruct (fold_left render_folder (PyStr.sorted (map fst structure))
                      ([], structure)) as [items s'].
  cbn [fst] in H |- *. now rewrite H.
Qed.

(** X9: rendering the news list a second time gives the same text and
    changes nothing any more: the structure the first call left behind is
    a fixed point. *)
Theorem rendering_twice_changes_nothing :
  forall structure : Structure,
    generate_news_list_html (snd (generate_news_list_html structure))
    = generate_news_list_html structure.
Proof.
  intro structure. unfold generate_news_list_html.
  set (keys := PyStr.sorted (map fst structure)).
  pose proof (fold_render_reordered keys [] structure) as Hr.
  pose proof (fold_render_items keys [] structure) as Hi.
  pose proof (fun key => fold_render_shown keys key [] structure) as Hs.
  pose proof (rendered_sorted structure) as Hsorted.
  change (PyStr.sorted (map fst structure)) with keys in Hsorted.
  change (forall key,
             sorted_at (snd (fold_left render_folder keys ([], structure)))
                       key) in Hsorted.
  destruct (fold_left render_folder keys ([], structure)) as [items s'].
  cbn [fst snd] in *.
  rewrite (reordered_keys _ _ Hr). fold keys.
  pose proof (fold_render_items keys [] s') as Hi'.
  pose proof (fold_render_fixed keys [] s' Hsorted) as Hf.
  destruct (fold_left render_folder keys ([], s')) as [items2 s2].
  cbn [fst snd] in *. subst s2. f_equal. f_equal.
  rewrite Hi, Hi'. f_equal. apply flat_map_ext. intro key. now rewrite Hs.
Qed.

(* ------------------------------------------------------------------ *)
(** ** What a run does to the file system *)

Section Writing.





End Writing.



(* ------------------------------------------------------------------ *)
(** ** Matches and their groups *)

Module TrackingFacts.
Import Re Matching Tracking ReFacts.

Lemma apply_marks_shift k ms :
  forall pos cs,
    apply_marks pos (map (shift k) ms) cs = apply_marks (pos + k) ms cs.
Proof.
  unfold apply_marks.
  induction ms as [|m ms IH]; intros pos cs; simpl; [reflexivity|].
  rewrite IH. f_equal. destruct m; simpl; f_equal; lia.
Qed.

Lemma yields_eq p s n n' ms ms' :
  yields p s n ms -> n = n' -> ms = ms' -> yields p s n' ms'.
Proof. now intros H <- <-. Qed.

Lemma yields_nil s : yields [] s 0 [].
Proof. intros prev pos cs. simpl. now rewrite Nat.add_0_r. Qed.

Lemma yields_one k c p s n ms :
  accepts k c = true -> yields p s n ms ->
  yields (One k :: p) (String c s) (S n) (map (shift 1) ms).
Proof.
  intros Hk H prev pos cs. simpl. rewrite Hk, H, apply_marks_shift.
  do 2 f_equal; [lia | f_equal; lia].
Qed.

Lemma yields_open g p s n ms :
  yields p s n ms -> yields (Open g :: p) s n (MOpen g 0 :: ms).
Proof.
  intros H prev pos cs. simpl. rewrite H. unfold apply_marks. simpl.
  now rewrite Nat.add_0_r.
Qed.

Lemma yields_close g p s n ms :
  yields p s n ms -> yields (Close g :: p) s n (MClose g 0 :: ms).
Proof.
  intros H prev pos cs. simpl. rewrite H. unfold apply_marks. simpl.
  now rewrite Nat.add_0_r.
Qed.

Lemma yields_eol p s n ms :
  line_ends s = true -> yields p s n ms -> yields (Eol :: p) s n ms.
Proof.
  intros He H prev pos cs. simpl.
  replace (at_eol s) with true by (now destruct s). apply H.
Qed.

Lemma yields_star_stop k p s n ms :
  head_rejected k s -> yields p s n ms -> yields (Star k :: p) s n ms.
Proof.
  intros Hh H prev pos cs. rewrite star_unfold.
  destruct s as [|c s]; [apply H|].
  simpl in Hh. rewrite Hh. apply H.
Qed.

Lemma yields_star_step k c p s n ms :
  accepts k c = true -> yields (Star k :: p) s n ms ->
  yields (Star k :: p) (String c s) (S n) (map (shift 1) ms).
Proof.
  intros Hk H prev pos cs. rewrite star_unfold, Hk, H, apply_marks_shift.
  do 2 f_equal; [lia | f_equal; lia].
Qed.

Lemma yields_lazy_stop k p s n ms :
  yields p s n ms -> yields (LazyStar k :: p) s n ms.
Proof. intros H prev pos cs. now rewrite lazy_unfold, H. Qed.

Lemma yields_lazy_step k c p s n ms :
  fails p (String c s) -> accepts k c = true ->
  yields (LazyStar k :: p) s n ms ->
  yields (LazyStar k :: p) (String c s) (S n) (map (shift 1) ms).
Proof.
  intros Hf Hk H prev pos cs.
  rewrite lazy_unfold, Hf, Hk, H, apply_marks_shift.
  do 2 f_equal; [lia | f_equal; lia].
Qed.

Lemma yields_lits lit p s n ms :
  yields p s n ms ->
  yields (lits lit ++ p)%list (lit ++ s) (length lit + n)
         (map (shift (length lit)) ms).
Proof.
  intro H. induction lit as [|c lit IH]; simpl.
  - eapply yields_eq; [exact H | reflexivity|].
    rewrite <- (map_id ms) at 1. apply map_ext. now intros [g o|g o].
  - eapply yields_eq;
      [apply yields_one; [apply Ascii.eqb_refl | exact IH] | reflexivity|].
    rewrite map_map. apply map_ext. now intros [g o|g o].
Qed.

(** A greedy run over a text all of whose characters are accepted. *)
Lemma yields_star_run k p w s n ms :
  (forall c, In c (list_ascii_of_string w) -> accepts k c = true) ->
  yields (Star k :: p) s n ms ->
  yields (Star k :: p) (w ++ s) (length w + n) (map (shift (length w)) ms).
Proof.
  intros Hw H. induction w as [|c w IH]; simpl.
  - eapply yields_eq; [exact H | reflexivity|].
    rewrite <- (map_id ms) at 1. apply map_ext. now intros [g o|g o].
  - eapply yields_eq;
      [apply yields_star_step;
       [apply Hw; now left | apply IH; intros d Hd; apply Hw; now right]
      | reflexivity|].
    rewrite map_map. apply map_ext. now intros [g o|g o].
Qed.

Lemma all_space_accepts w :
  all_space w = true ->
  forall c, In c (list_ascii_of_string w) -> accepts Space c = true.
Proof.
  induction w as [|a w IH]; simpl; [contradiction|].
  intros H c [<-|Hin]; apply andb_true_iff in H as [Ha Hw]; auto.
Qed.

Lemma free_of_accepts a k w :
  (forall c, c <> a -> accepts k c = true) ->
  free_of a w = true ->
  forall c, In c (list_ascii_of_string w) -> accepts k c = true.
Proof.
  intros Hk. induction w as [|b w IH]; simpl; [contradiction|].
  intros H c [<-|Hin]; apply andb_true_iff in H as [Hb Hw]; auto.
  apply Hk. apply negb_true_iff, Ascii.eqb_neq in Hb. exact Hb.
Qed.

(** What a match found by [yields] looks like to [try_at]. *)
Lemma try_at_yields p prev pos s n ms :
  yields p s n ms ->
  try_at p prev pos s
  = Some {| m_start := pos; m_end := pos + n;
            m_groups := spans (apply_marks pos ms no_captures) |}.
Proof. intro H. unfold try_at. now rewrite H. Qed.

End TrackingFacts.

(* ------------------------------------------------------------------ *)
(** ** Replacing the content of a region *)

Module RegionFacts.
Import Re Matching Tracking ReFacts TrackingFacts Region.

Lemma find_skip needle a :
  forall s k,
    PyStr.find needle (a ++ s) = Some (length a + k) ->
    PyStr.find needle s = Some k.
Proof.
  induction a as [|c a IH]; intros s k H; [exact H|].
  cbn [append length Nat.add] in H.
  destruct (find_cons _ _ _ _ H) as [_ Hf]. now apply IH.
Qed.

Lemma substring_at a b c :
  substring (length a) (length b) (a ++ b ++ c) = b.
Proof.
  rewrite substring_skip.
  induction b as [|x b IH]; simpl; [now destruct c | now rewrite IH].
Qed.

(** The text of a group whose span is known. *)
Lemma mgroup_span subject a b c g m lo hi :
  subject = a ++ b ++ c ->
  assoc (S g) (m_groups m) = Some (lo, hi) ->
  lo = length a -> hi = length a + length b ->
  mgroup subject m (S g) = b.
Proof.
  intros -> Hg -> ->. unfold mgroup. rewrite Hg.
  replace (length a + length b - length a) with (length b) by lia.
  apply substring_at.
Qed.

Lemma expand_literal html t subject m :
  expand (map TLit (list_ascii_of_string html) ++ t)%list subject m
  = html ++ expand t subject m.
Proof.
  induction html as [|c html IH]; simpl; [reflexivity | now rewrite IH].
Qed.

Lemma expand_between html subject m :
  expand (between_groups html) subject m
  = mgroup subject m 1 ++ html ++ mgroup subject m 2.
Proof.
  unfold between_groups. cbn [expand]. rewrite expand_literal.
  cbn [expand]. now rewrite str_app_nil_r.
Qed.

(** A text without backslash is read as it stands. *)
Lemma parse_literal ngroups html s :
  free_of BS html = true ->
  parse_from ngroups TNormal (html ++ s)
  = option_map (app (map TLit (list_ascii_of_string html)))
               (parse_from ngroups TNormal s).
Proof.
  induction html as [|c html IH]; intro H; simpl.
  - now destruct (parse_from ngroups TNormal s).
  - simpl in H. apply andb_true_iff in H as [Hc Hh].
    apply negb_true_iff in Hc. unfold tnormal. rewrite Hc, (IH Hh).
    now destruct (parse_from ngroups TNormal s).
Qed.

Lemma parse_step ngroups m c s :
  parse_from ngroups m (String c s)
  = match tstep ngroups m c with
    | Some (m', out) => option_map (app out) (parse_from ngroups m' s)
    | None => None
    end.
Proof.
  simpl. destruct (tstep ngroups m c) as [[m' out]|]; [|reflexivity].
  now destruct (parse_from ngroups m' s).
Qed.

(** The replacement [\1 html \2] compiles to the two groups with the text
    between them, when the text has no backslash and does not go on the
    digit of [\1]. *)
Lemma parse_between html :
  free_of BS html = true -> head_not_digit html = true ->
  parse_template 2 (String BS "1" ++ html ++ String BS "2")
  = Some (between_groups html).
Proof.
  intros Hf Hd. unfold parse_template, between_groups.
  destruct html as [|c html]; [reflexivity|].
  simpl in Hf, Hd. apply andb_true_iff in Hf as [Hc Hh].
  apply negb_true_iff in Hc, Hd.
  cbn [append]. rewrite parse_step.
  change (tstep 2 TNormal BS) with (Some (TEsc, @nil tpart)). cbv iota.
  rewrite parse_step.
  change (tstep 2 TEsc "1") with (Some (TDig1 1, @nil tpart)). cbv iota.
  rewrite parse_step. cbn [tstep]. rewrite Hd.
  unfold then_normal, add_group, tnormal. cbn [Nat.leb]. rewrite Hc.
  rewrite (parse_literal 2 html _ Hh).
  reflexivity.
Qed.

Section Replace.

Variables tag close_tag : string.

Hypothesis close_tag_head :
  match close_tag with
  | String c _ => PyStr.is_space c = false
  | EmptyString => False
  end.

Lemma closing_head after : head_rejected Space (closing close_tag after).
Proof.
  unfold closing. destruct close_tag; [contradiction | exact close_tag_head].
Qed.

Lemma close_marks trail after :
  all_space trail = true ->
  yields (close_pat close_tag) (trail ++ closing close_tag after)
         (length trail + (length close_tag + 1))
         [MClose 2 (length trail + (length close_tag + 1))].
Proof.
  intro Ht. unfold close_pat.
  eapply yields_eq.
  - apply yields_star_run; [apply all_space_accepts, Ht|].
    apply yields_star_stop; [apply closing_head|].
    unfold closing. apply yields_lits.
    apply yields_star_stop; [reflexivity|].
    apply yields_one; [reflexivity|].
    apply yields_close, yields_nil.
  - reflexivity.
  - reflexivity.
Qed.

Lemma core_fails w rest :
  forall k,
    w <> EmptyString -> last_not_space w = true ->
    PyStr.find close_tag (w ++ rest) = Some k -> length w <= k ->
    fails (close_pat close_tag) (w ++ rest).
Proof.
  induction w as [|c w IH]; intros k Hne Hl Hf Hk; [congruence|].
  destruct k as [|k]; [simpl in Hk; lia|].
  cbn [append] in Hf |- *. destruct (find_cons _ _ _ _ Hf) as [Hp Hf'].
  unfold close_pat. destruct w as [|d w].
  - simpl in Hl. apply negb_true_iff in Hl.
    apply fails_star_stop; [exact Hl | now apply fails_lits].
  - destruct (PyStr.is_space c) eqn:Hc.
    + apply fails_star_step; [|now apply fails_lits].
      apply (IH k); [discriminate | exact Hl | exact Hf' | simpl in *; lia].
    + apply fails_star_stop; [exact Hc | now apply fails_lits].
Qed.

Lemma last_not_space_tail c w :
  last_not_space (String c w) = true -> last_not_space w = true.
Proof. destruct w; [reflexivity | now simpl]. Qed.

Lemma body_marks w trail after :
  last_not_space w = true -> all_space trail = true ->
  PyStr.find close_tag (w ++ trail ++ closing close_tag after)
  = Some (length w + length trail) ->
  yields (body_pat close_tag) (w ++ trail ++ closing close_tag after)
         (length w + (length trail + (length close_tag + 1)))
         [MOpen 2 (length w);
          MClose 2 (length w + (length trail + (length close_tag + 1)))].
Proof.
  intros Hl Ht. induction w as [|c w IH]; intro Hf.
  - unfold body_pat. apply yields_lazy_stop.
    eapply yields_eq;
      [apply yields_open, close_marks, Ht | reflexivity | reflexivity].
  - assert (Hfail : fails (Open 2 :: close_pat close_tag)
                          (String c w ++ trail ++ closing close_tag after)).
    { apply fails_open.
      apply core_fails with (k := length (String c w) + length trail);
        [discriminate | exact Hl | exact Hf | lia]. }
    cbn [append length Nat.add] in Hf, Hfail |- *.
    destruct (find_cons _ _ _ _ Hf) as [_ Hf'].
    eapply yields_eq;
      [apply yields_lazy_step;
       [exact Hfail | reflexivity
        | apply IH; [eapply last_not_space_tail, Hl | exact Hf']]
      | reflexivity | reflexivity].
Qed.

Lemma inside_marks lead core trail after :
  all_space lead = true -> all_space trail = true ->
  tight core trail = true ->
  PyStr.find close_tag (lead ++ core ++ trail ++ closing close_tag after)
  = Some (length lead + (length core + length trail)) ->
  yields (Star Space :: Close 1 :: body_pat close_tag)
         (lead ++ core ++ trail ++ closing close_tag after)
         (length lead + (length core + (length trail + (length close_tag + 1))))
         [MClose 1 (length lead);
          MOpen 2 (length lead + length core);
          MClose 2 (length lead
                    + (length core
                       + (length trail + (length close_tag + 1))))].
Proof.
  intros Hlead Htrail Ht Hf. apply find_skip in Hf.
  eapply yields_eq.
  - apply yields_star_run; [apply all_space_accepts, Hlead|].
    apply yields_star_stop.
    + destruct core as [|c core]; simpl in Ht.
      * apply String.eqb_eq in Ht. subst trail. apply closing_head.
      * apply andb_true_iff in Ht as [Hh _]. simpl.
        now apply negb_true_iff in Hh.
    + apply yields_close, body_marks; [|exact Htrail | exact Hf].
      destruct core as [|c core]; [reflexivity|].
      simpl in Ht. now apply andb_true_iff in Ht as [_ Hl].
  - reflexivity.
  - cbn [map shift]. now rewrite Nat.add_0_r.
Qed.

Lemma region_marks lead core trail after :
  all_space lead = true -> all_space trail = true ->
  tight core trail = true ->
  PyStr.find close_tag (lead ++ core ++ trail ++ closing close_tag after)
  = Some (length lead + (length core + length trail)) ->
  yields (region_re tag close_tag)
         (tag ++ ">" ++ lead ++ core ++ trail ++ closing close_tag after)
         (length tag
          + S (length lead
               + (length core + (length trail + (length close_tag + 1)))))
         [MOpen 1 0;
          MClose 1 (length tag + S (length lead));
          MOpen 2 (length tag + S (length lead + length core));
          MClose 2 (length tag
                    + S (length lead
                         + (length core
                            + (length trail + (length close_tag + 1)))))].
Proof.
  intros Hlead Htrail Ht Hf. unfold region_re.
  eapply yields_eq.
  - apply yields_open, yields_lits.
    apply yields_star_stop; [reflexivity|].
    apply yields_one; [reflexivity|].
    now apply inside_marks.
  - reflexivity.
  - reflexivity.
Qed.

End Replace.

End RegionFacts.

Module ReplaceFacts.
Import Re Matching Tracking ReFacts TrackingFacts Region RegionFacts.

Lemma yields_ends p s n ms : yields p s n ms -> ends p s n.
Proof. intros H prev pos cs. eexists. apply H. Qed.

(** The scan at a match whose groups are known. *)
Lemma sub_from_yields p t subject prev pos w rest ms :
  w <> EmptyString ->
  yields p (w ++ rest) (length w) ms ->
  sub_from p t subject prev pos (w ++ rest) 0
  = expand t subject
           {| m_start := pos; m_end := pos + length w;
              m_groups := spans (apply_marks pos ms no_captures) |}
    ++ sub_from p t subject (last_after prev w) (pos + length w) rest 0.
Proof.
  intros Hne Hy.
  destruct (scan_match p t subject prev pos w rest Hne (yields_ends _ _ _ _ Hy))
    as (m & Em & Es).
  rewrite (try_at_yields _ prev pos _ _ _ Hy) in Em. injection Em as <-.
  exact Es.
Qed.

(** In a document with one region [tag > lead core trail close_tag >] the
    scan with the replacement [\1 html \2] puts [html] in the place of
    [core] and copies the rest. *)
Lemma replace_region tag close_tag before lead core trail after html :
  match close_tag with
  | String c _ => PyStr.is_space c = false
  | EmptyString => False
  end ->
  tag <> EmptyString ->
  PyStr.find tag
             (before ++ tag ++ ">" ++ lead ++ core ++ trail
              ++ close_tag ++ ">" ++ after)
  = Some (length before) ->
  PyStr.find close_tag (lead ++ core ++ trail ++ close_tag ++ ">" ++ after)
  = Some (length lead + (length core + length trail)) ->
  PyStr.find tag after = None ->
  all_space lead = true -> all_space trail = true ->
  tight core trail = true ->
  sub_from (region_re tag close_tag) (between_groups html)
           (before ++ tag ++ ">" ++ lead ++ core ++ trail
            ++ close_tag ++ ">" ++ after)
           None 0
           (before ++ tag ++ ">" ++ lead ++ core ++ trail
            ++ close_tag ++ ">" ++ after)
           0
  = before ++ tag ++ ">" ++ lead ++ html ++ trail
    ++ close_tag ++ ">" ++ after.
Proof.
  intros Hhead Htag Hb Hi Ha Hlead Htrail Ht.
  set (doc := before ++ tag ++ ">" ++ lead ++ core ++ trail
              ++ close_tag ++ ">" ++ after) in *.
  set (w := tag ++ ">" ++ lead ++ core ++ trail ++ close_tag ++ ">").
  assert (Edoc : doc = before ++ w ++ after).
  { unfold doc, w. now rewrite !str_app_assoc. }
  assert (Hy : yields (region_re tag close_tag) (w ++ after) (length w)
                 [MOpen 1 0;
                  MClose 1 (length tag + S (length lead));
                  MOpen 2 (length tag + S (length lead + length core));
                  MClose 2 (length w)]).
  { assert (El : length w
                 = length tag
                   + S (length lead
                        + (length core
                           + (length trail + (length close_tag + 1)))))
      by (unfold w; rewrite !str_length_app; simpl; lia).
    replace (w ++ after)
      with (tag ++ ">" ++ lead ++ core ++ trail ++ closing close_tag after)
      by (unfold w, closing; now rewrite !str_app_assoc).
    rewrite El.
    apply (region_marks tag close_tag Hhead lead core trail after
                        Hlead Htrail Ht Hi). }
  assert (Hw : w <> EmptyString).
  { unfold w. destruct tag; [congruence | discriminate]. }
  set (q := (Star Space :: One (Lit ">") :: Star Space :: Close 1
             :: body_pat close_tag)%list).
  change (region_re tag close_tag) with (Open 1 :: lits tag ++ q)%list in *.
  rewrite Edoc in Hb.
  rewrite Edoc at 2.
  rewrite (scan_before_tag 1 tag q (between_groups html) doc before
                           (w ++ after) None 0 Hb).
  rewrite (sub_from_yields _ (between_groups html) doc
                           (last_after None before) (0 + length before)
                           w after _ Hw Hy).
  rewrite expand_between.
  rewrite (sub_from_unmatched _ _ _ after)
    by (apply search_without_tag, Ha).
  set (m := {| m_start := 0 + length before;
               m_end := 0 + length before + length w;
               m_groups := _ |}).
  assert (E1 : mgroup doc m 1 = tag ++ ">" ++ lead).
  { apply (mgroup_span doc before (tag ++ ">" ++ lead)
                       (core ++ trail ++ close_tag ++ ">" ++ after) 0 m
                       (0 + length before + 0)
                       (0 + length before + (length tag + S (length lead)))).
    - unfold doc. now rewrite !str_app_assoc.
    - reflexivity.
    - lia.
    - rewrite !str_length_app. simpl. lia. }
  assert (E2 : mgroup doc m 2 = trail ++ close_tag ++ ">").
  { apply (mgroup_span doc (before ++ tag ++ ">" ++ lead ++ core)
                       (trail ++ close_tag ++ ">") after 1 m
                       (0 + length before
                        + (length tag + S (length lead + length core)))
                       (0 + length before + length w)).
    - unfold doc. now rewrite !str_app_assoc.
    - reflexivity.
    - rewrite !str_length_app. simpl. lia.
    - unfold w. rewrite !str_length_app. simpl. lia. }
  rewrite E1, E2. now rewrite !str_app_assoc.
Qed.

End ReplaceFacts.

(** X11: in a document with one news-list region, written as the opening
    tag, white space [lead], a content [core] that neither begins nor ends
    with white space, white space [trail] and [</ul>], the news-list
    substitution puts the fragment in the place of [core] and leaves every
    other character of the document, the white space next to the tags
    included, as it was.  The fragment must be free of backslashes and
    must not begin with a digit, for it is read as a replacement template
    behind [\1]. *)
Theorem news_list_region_is_replaced :
  forall before lead core trail after news_list_html : string,
    PyStr.find news_list_tag
               (before ++ news_list_tag ++ ">" ++ lead ++ core ++ trail
                ++ "</ul>" ++ after)
    = Some (length before) ->
    PyStr.find "</ul" (lead ++ core ++ trail ++ "</ul>" ++ after)
    = Some (length lead + (length core + length trail)) ->
    PyStr.find news_list_tag after = None ->
    all_space lead = true -> all_space trail = true ->
    tight core trail = true ->
    free_of Re.BS news_list_html = true ->
    head_not_digit news_list_html = true ->
    replace_news_list
      news_list_html
      (before ++ news_list_tag ++ ">" ++ lead ++ core ++ trail
       ++ "</ul>" ++ after)
    = Ok (before ++ news_list_tag ++ ">" ++ lead ++ news_list_html ++ trail
          ++ "</ul>" ++ after).
Proof.
  intros before lead core trail after html Hb Hi Ha Hlead Htrail Ht Hf Hd.
  unfold replace_news_list, re_sub, Re.sub, backref.
  change (Re.groups news_list_re) with 2.
  rewrite (RegionFacts.parse_between html Hf Hd). cbn [of_option]. f_equal.
  change news_list_re with (Tracking.region_re news_list_tag "</ul").
  apply (ReplaceFacts.replace_region news_list_tag "</ul");
    try assumption; [reflexivity | discriminate].
Qed.

Lemma news_list_region_is_replaced_witness :
  replace_news_list
    (PyStr.lf ++ "<li>new</li>")
    ("<body>" ++ news_list_tag ++ ">" ++ (PyStr.lf ++ "  ") ++ "<li>old</li>"
     ++ PyStr.lf ++ "</ul>" ++ "</body>")
  = Ok ("<body>" ++ news_list_tag ++ ">" ++ (PyStr.lf ++ "  ")
        ++ (PyStr.lf ++ "<li>new</li>") ++ PyStr.lf ++ "</ul>" ++ "</body>").
Proof.
  exact (news_list_region_is_replaced
           "<body>" (PyStr.lf ++ "  ") "<li>old</li>" PyStr.lf "</body>"
           (PyStr.lf ++ "<li>new</li>")
           eq_refl eq_refl eq_refl eq_refl eq_refl eq_refl eq_refl eq_refl).
Defined.

(** X12: the same for the showcase region and a fragment that is not
    empty: in a document with one showcase region the substitution puts
    the fragment in the place of the content between the two tags, white
    space next to the tags apart, and leaves the rest of the document as
    it was. *)
Theorem showcase_region_is_replaced :
  forall before lead core trail after language_showcase_html : string,
    PyStr.find showcase_tag
               (before ++ showcase_tag ++ ">" ++ lead ++ core ++ trail
                ++ "</div>" ++ after)
    = Some (length before) ->
    PyStr.find "</div" (lead ++ core ++ trail ++ "</div>" ++ after)
    = Some (length lead + (length core + length trail)) ->
    PyStr.find showcase_tag after = None ->
    all_space lead = true -> all_space trail = true ->
    tight core trail = true ->
    language_showcase_html <> EmptyString ->
    free_of Re.BS language_showcase_html = true ->
    head_not_digit language_showcase_html = true ->
    replace_language_showcase
      language_showcase_html
      (before ++ showcase_tag ++ ">" ++ lead ++ core ++ trail
       ++ "</div>" ++ after)
    = Ok (before ++ showcase_tag ++ ">" ++ lead ++ language_showcase_html
          ++ trail ++ "</div>" ++ after).
Proof.
  intros before lead core trail after html Hb Hi Ha Hlead Htrail Ht Hne Hf Hd.
  unfold replace_language_showcase, re_sub, Re.sub, backref.
  destruct html as [|c html]; [congruence|].
  change (Re.groups showcase_re) with 2.
  rewrite (RegionFacts.parse_between (String c html) Hf Hd).
  cbn [of_option]. f_equal.
  change showcase_re with (Tracking.region_re showcase_tag "</div").
  apply (ReplaceFacts.replace_region showcase_tag "</div");
    try assumption; [reflexivity | discriminate].
Qed.

Lemma showcase_region_is_replaced_witness :
  replace_language_showcase
    (generate_language_showcase_html ["EN"])
    ("<body>" ++ showcase_tag ++ ">" ++ " " ++ "<span>old</span>"
     ++ EmptyString ++ "</div>" ++ "</body>")
  = Ok ("<body>" ++ showcase_tag ++ ">" ++ " "
        ++ generate_language_showcase_html ["EN"]
        ++ EmptyString ++ "</div>" ++ "</body>").
Proof.
  refine (showcase_region_is_replaced
            "<body>" " " "<span>old</span>" EmptyString "</body>"
            (generate_language_showcase_html ["EN"])
            eq_refl eq_refl eq_refl eq_refl eq_refl eq_refl _
            eq_refl eq_refl).
  discriminate.
Defined.

(* ------------------------------------------------------------------ *)
(** ** Title and summary of a text *)

Module ExtractFacts.
Import Re Matching Tracking ReFacts TrackingFacts Region RegionFacts.

Lemma search_hit p prev pos s m :
  try_at p prev pos s = Some m -> search_from p prev pos s = Some m.
Proof. intro H. destruct s; simpl; now rewrite H. Qed.

(** The search passes over the text before the first occurrence of the
    literal the pattern begins with. *)
Lemma search_skip lit q before rest :
  forall prev pos,
    PyStr.find lit (before ++ rest) = Some (length before) ->
    search_from (lits lit ++ q)%list prev pos (before ++ rest)
    = search_from (lits lit ++ q)%list (last_after prev before)
                  (pos + length before) rest.
Proof.
  induction before as [|c before IH]; intros prev pos H.
  - simpl. now rewrite Nat.add_0_r.
  - cbn [append length] in H |- *.
    destruct (find_cons _ _ _ _ H) as [Hp Hf].
    cbn [search_from].
    rewrite (try_at_fails _ _ _ _ (fails_lits lit q _ Hp)).
    rewrite (IH _ _ Hf). cbn [last_after].
    replace (pos + S (length before)) with (S pos + length before) by lia.
    reflexivity.
Qed.

Lemma not_lf_accepts k :
  k = Dot \/ k = NotLF -> forall c, c <> PyStr.LF -> accepts k c = true.
Proof.
  intros [->| ->] c Hc; simpl; apply negb_true_iff, Ascii.eqb_neq, Hc.
Qed.

Lemma line_ends_rejected k s :
  k = Dot \/ k = NotLF -> line_ends s = true -> head_rejected k s.
Proof.
  intros Hk H. destruct s as [|c s]; [exact I|]. simpl in H |- *.
  destruct Hk as [->| ->]; simpl; now rewrite H.
Qed.

(** One line: a run of characters other than the line feed, up to the
    end of the text or of the line. *)
Lemma line_marks k g p t rest :
  k = Dot \/ k = NotLF ->
  t <> EmptyString -> free_of PyStr.LF t = true -> line_ends rest = true ->
  yields p rest 0 [] ->
  yields (Open g :: One k :: Star k :: Close g :: p) (t ++ rest)
         (length t) [MOpen g 0; MClose g (length t)].
Proof.
  intros Hk Hne Hf Hr Hp. destruct t as [|c t]; [congruence|].
  simpl in Hf. apply andb_true_iff in Hf as [Hc Hf].
  apply negb_true_iff, Ascii.eqb_neq in Hc.
  eapply yields_eq.
  - apply yields_open. cbn [append].
    apply yields_one; [now apply not_lf_accepts|].
    apply yields_star_run;
      [apply (free_of_accepts PyStr.LF);
       [now apply not_lf_accepts | exact Hf]|].
    apply yields_star_stop; [now apply line_ends_rejected|].
    apply yields_close, Hp.
  - simpl. lia.
  - cbn [map shift length]. repeat f_equal. lia.
Qed.

End ExtractFacts.

(** X13: a text that begins with a heading line, that is [#], white space
    and a title that does not begin with white space and runs to the end
    of the line, has that title, whatever follows and whatever the file is
    called. *)
Theorem heading_line_gives_title :
  forall blanks heading rest md_file : string,
    blanks <> EmptyString -> all_space blanks = true ->
    heading <> EmptyString -> head_not_space heading = true ->
    free_of PyStr.LF heading = true ->
    line_ends rest = true ->
    extract_title ("#" ++ blanks ++ heading ++ rest) md_file = heading.
Proof.
  intros blanks heading rest md_file Hb Hsp Hh Hhs Hf Hr.
  unfold extract_title, Re.search.
  assert (Hy : Tracking.yields
                 (Re.One (Re.Lit "#") :: Re.One Re.Space :: Re.Star Re.Space
                  :: Re.Open 1 :: Re.One Re.Dot :: Re.Star Re.Dot
                  :: Re.Close 1 :: [Re.Eol])
                 ("#" ++ blanks ++ heading ++ rest)
                 (S (length blanks + length heading))
                 [Tracking.MOpen 1 (S (length blanks));
                  Tracking.MClose 1 (S (length blanks + length heading))]).
  { destruct blanks as [|b blanks]; [congruence|].
    simpl in Hsp. apply andb_true_iff in Hsp as [Hb0 Hsp].
    eapply TrackingFacts.yields_eq.
    - cbn [append].
      apply TrackingFacts.yields_one; [reflexivity|].
      apply TrackingFacts.yields_one; [exact Hb0|].
      apply TrackingFacts.yields_star_run;
        [apply TrackingFacts.all_space_accepts, Hsp|].
      apply TrackingFacts.yields_star_stop.
      + destruct heading as [|c heading]; [congruence|]. simpl in Hhs |- *.
        now apply negb_true_iff in Hhs.
      + apply ExtractFacts.line_marks; auto.
        apply TrackingFacts.yields_eol; [exact Hr|].
        apply TrackingFacts.yields_nil.
    - simpl. lia.
    - cbn [map Tracking.shift length]. repeat f_equal; lia. }
  assert (Ht : Re.try_at title_re None 0 ("#" ++ blanks ++ heading ++ rest)
               = Some {| Re.m_start := 0;
                         Re.m_end := 0 + S (length blanks + length heading);
                         Re.m_groups :=
                           [(1, (0 + S (length blanks),
                                 0 + S (length blanks + length heading)))] |}).
  { change (Re.try_at title_re None 0 ("#" ++ blanks ++ heading ++ rest))
      with (Re.try_at
              (Re.One (Re.Lit "#") :: Re.One Re.Space :: Re.Star Re.Space
               :: Re.Open 1 :: Re.One Re.Dot :: Re.Star Re.Dot
               :: Re.Close 1 :: [Re.Eol])
              None 0 ("#" ++ blanks ++ heading ++ rest)).
    now rewrite (TrackingFacts.try_at_yields _ None 0 _ _ _ Hy). }
  unfold Re.search. rewrite (ExtractFacts.search_hit _ _ _ _ _ Ht).
  apply (RegionFacts.mgroup_span _ ("#" ++ blanks) heading rest 0 _
                                 (0 + S (length blanks))
                                 (0 + S (length blanks + length heading))).
  - now rewrite !str_app_assoc.
  - reflexivity.
  - rewrite str_length_app. simpl. lia.
  - rewrite str_length_app. simpl. lia.
Qed.

Lemma heading_line_gives_title_witness :
  extract_title ("#" ++ " " ++ "Big Story"
                 ++ (PyStr.lf ++ PyStr.lf ++ "This is the opening line."))
                "20240301_story.md"
  = "Big Story".
Proof.
  refine (heading_line_gives_title
            " " "Big Story"
            (PyStr.lf ++ PyStr.lf ++ "This is the opening line.")
            "20240301_story.md" _ eq_refl _ eq_refl eq_refl eq_refl);
    discriminate.
Defined.

(** X14: the summary is the line that follows the first blank line: in a
    text whose first two line feeds in a row are followed by a line that
    is not empty, the raw summary is that line, and the stored summary is
    its truncation. *)
Theorem first_paragraph_gives_summary :
  forall above paragraph rest : string,
    PyStr.find (PyStr.lf ++ PyStr.lf)
               (above ++ (PyStr.lf ++ PyStr.lf) ++ paragraph ++ rest)
    = Some (length above) ->
    paragraph <> EmptyString ->
    free_of PyStr.LF paragraph = true ->
    line_ends rest = true ->
    raw_summary (above ++ (PyStr.lf ++ PyStr.lf) ++ paragraph ++ rest)
    = paragraph /\
    extract_summary (above ++ (PyStr.lf ++ PyStr.lf) ++ paragraph ++ rest)
    = truncate_summary paragraph.
Proof.
  intros above paragraph rest Hfind Hne Hf Hr.
  assert (E : raw_summary
                (above ++ (PyStr.lf ++ PyStr.lf) ++ paragraph ++ rest)
              = paragraph).
  { unfold raw_summary, Re.search.
    set (q := [Re.Open 1; Re.One Re.NotLF; Re.Star Re.NotLF; Re.Close 1]).
    change summary_re with (Re.lits (PyStr.lf ++ PyStr.lf) ++ q)%list.
    rewrite (ExtractFacts.search_skip (PyStr.lf ++ PyStr.lf) q above
               ((PyStr.lf ++ PyStr.lf) ++ paragraph ++ rest) None 0 Hfind).
    assert (Hy : Tracking.yields
                   (Re.lits (PyStr.lf ++ PyStr.lf) ++ q)%list
                   ((PyStr.lf ++ PyStr.lf) ++ paragraph ++ rest)
                   (2 + length paragraph)
                   [Tracking.MOpen 1 2;
                    Tracking.MClose 1 (2 + length paragraph)]).
    { eapply TrackingFacts.yields_eq.
      - apply TrackingFacts.yields_lits.
        apply ExtractFacts.line_marks; auto.
        apply TrackingFacts.yields_nil.
      - reflexivity.
      - cbn [map Tracking.shift length]. repeat f_equal; lia. }
    rewrite (ExtractFacts.search_hit
               _ _ _ _ _ (TrackingFacts.try_at_yields _ _ _ _ _ _ Hy)).
    apply (RegionFacts.mgroup_span _ (above ++ PyStr.lf ++ PyStr.lf)
                                   paragraph rest 0 _
                                   (0 + length above + 2)
                                   (0 + length above + (2 + length paragraph))).
    - now rewrite !str_app_assoc.
    - reflexivity.
    - rewrite !str_length_app. simpl. lia.
    - rewrite !str_length_app. simpl. lia. }
  split; [exact E|]. unfold extract_summary. now rewrite E.
Qed.

Lemma first_paragraph_gives_summary_witness :
  raw_summary ("# Big Story" ++ (PyStr.lf ++ PyStr.lf)
               ++ "This is the opening line." ++ PyStr.lf)
  = "This is the opening line." /\
  extract_summary ("# Big Story" ++ (PyStr.lf ++ PyStr.lf)
                   ++ "This is the opening line." ++ PyStr.lf)
  = truncate_summary "This is the opening line.".
Proof.
  refine (first_paragraph_gives_summary
            "# Big Story" "This is the opening line." PyStr.lf
            eq_refl _ eq_refl eq_refl).
  discriminate.
Defined.

(* ------------------------------------------------------------------ *)
(** ** Fragments as replacement templates *)

Section Templates.
Import Re.

Lemma letter_no_digit c :
  PyStr.is_letter c = true ->
  PyStr.is_digit c = false /\ (c =? "0")%char = false.
Proof.
  destruct c as [[] [] [] [] [] [] [] []]; try discriminate; now split.
Qed.

Lemma parse_bad_escape ngroups c rest :
  PyStr.is_letter c = true -> escape c = None -> (c =? "g")%char = false ->
  parse_from ngroups TEsc (String c rest) = None.
Proof.
  intros Hl He Hg. destruct (letter_no_digit c Hl) as [Hd H0].
  rewrite RegionFacts.parse_step. cbn [tstep].
  now rewrite Hg, H0, Hd, He, Hl.
Qed.

Lemma template_bad_escape pre c rest tail :
  free_of BS pre = true -> head_not_digit pre = true ->
  PyStr.is_letter c = true -> escape c = None -> (c =? "g")%char = false ->
  parse_template 2
    (String BS "1" ++ (pre ++ String BS (String c rest)) ++ tail)
  = None.
Proof.
  intros Hf Hd Hl He Hg. unfold parse_template. cbn [append].
  rewrite RegionFacts.parse_step.
  change (tstep 2 TNormal BS) with (Some (TEsc, @nil tpart)). cbv iota.
  rewrite RegionFacts.parse_step.
  change (tstep 2 TEsc "1") with (Some (TDig1 1, @nil tpart)). cbv iota.
  destruct pre as [|d pre]; cbn [append].
  - rewrite RegionFacts.parse_step.
    change (tstep 2 (TDig1 1) BS) with (Some (TEsc, [TGroup 1])). cbv iota.
    now rewrite (parse_bad_escape 2 c (rest ++ tail) Hl He Hg).
  - simpl in Hf, Hd. apply andb_true_iff in Hf as [Hc Hf].
    apply negb_true_iff in Hc, Hd.
    rewrite RegionFacts.parse_step. cbn [tstep]. rewrite Hd.
    unfold then_normal, add_group, tnormal. cbn [Nat.leb]. rewrite Hc.
    rewrite str_app_assoc, (RegionFacts.parse_literal 2 pre _ Hf).
    cbn [append]. rewrite RegionFacts.parse_step.
    change (tstep 2 TNormal BS) with (Some (TEsc, @nil tpart)). cbv iota.
    now rewrite (parse_bad_escape 2 c (rest ++ tail) Hl He Hg).
Qed.

End Templates.

(** X15: the fragments are handed to [re.sub] inside a replacement
    template, so a backslash in them is an escape.  When the first
    backslash of the news-list fragment is followed by an ASCII letter
    that is none of [a b f n r t v g], the substitution raises whatever
    the document is, and the same holds of the showcase fragment. *)
Theorem letter_escape_in_fragment_raises :
  forall (pre : string) (c : ascii) (rest document : string),
    free_of Re.BS pre = true -> head_not_digit pre = true ->
    PyStr.is_letter c = true -> Re.escape c = None ->
    (c =? "g")%char = false ->
    replace_news_list (pre ++ String Re.BS (String c rest)) document
    = Raise ReError /\
    replace_language_showcase (pre ++ String Re.BS (String c rest)) document
    = Raise ReError.
Proof.
  intros pre c rest document Hf Hd Hl He Hg.
  pose proof (template_bad_escape pre c rest (String Re.BS "2")
                                  Hf Hd Hl He Hg) as H.
  split.
  - unfold replace_news_list, re_sub, Re.sub, backref.
    change (Re.groups news_list_re) with 2. now rewrite H.
  - unfold replace_language_showcase, re_sub, Re.sub, backref.
    change (Re.groups showcase_re) with 2.
    destruct (pre ++ String Re.BS (String c rest)) as [|x y] eqn:E.
    + destruct pre; discriminate.
    + cbv iota. now rewrite H.
Qed.

Lemma letter_escape_in_fragment_raises_witness :
  replace_news_list ("<li>C:" ++ String Re.BS (String "d" "ocs</li>"))
                    Sample.template_with_showcase
  = Raise ReError /\
  replace_language_showcase
    ("<li>C:" ++ String Re.BS (String "d" "ocs</li>"))
    Sample.template_with_showcase
  = Raise ReError.
Proof.
  exact (letter_escape_in_fragment_raises
           "<li>C:" "d" "ocs</li>" Sample.template_with_showcase
           eq_refl eq_refl eq_refl eq_refl eq_refl).
Defined.

(* ------------------------------------------------------------------ *)
(** ** Names with one extension *)

Section Extension.

Lemma replace_before old new pre rest :
  PyStr.find old (pre ++ rest) = Some (length pre) ->
  PyStr.replace_from old new (pre ++ rest) 0
  = pre ++ PyStr.replace_from old new rest 0.
Proof.
  induction pre as [|c pre IH]; intro H; [reflexivity|].
  cbn [append length] in H |- *.
  destruct (Region.find_cons _ _ _ _ H) as [Hp Hf].
  cbn [PyStr.replace_from]. rewrite Hp. now rewrite (IH Hf).
Qed.

Lemma replace_one_extension stem :
  PyStr.find ".md" (stem ++ ".md") = Some (length stem) ->
  PyStr.replace ".md" EmptyString (stem ++ ".md") = stem.
Proof.
  intro H. unfold PyStr.replace. rewrite (replace_before _ _ _ _ H).
  change (PyStr.replace_from ".md" EmptyString ".md" 0) with EmptyString.
  apply str_app_nil_r.
Qed.

Lemma search_title_without_hash content :
  free_of "#" content = true ->
  forall prev pos, Re.search_from title_re prev pos content = None.
Proof.
  induction content as [|c content IH]; intros H prev pos.
  - cbn [Re.search_from]. unfold Re.try_at, title_re. simpl.
    now destruct (Re.at_bol prev).
  - simpl in H. apply andb_true_iff in H as [Hc H].
    apply negb_true_iff in Hc.
    cbn [Re.search_from].
    replace (Re.try_at title_re prev pos (String c content)) with
      (@None Re.rmatch).
    + now apply IH.
    + unfold Re.try_at, title_re. simpl. rewrite Hc.
      now destruct (Re.at_bol prev).
Qed.

End Extension.

(** X16: where [.md] occurs in a name only as its ending, removing the
    occurrences of [.md] strips the extension: the link of an article at
    [stem.md] is [stem], and so is the title of a file [stem.md] whose
    text contains no [#]. *)
Theorem one_extension_is_stripped :
  forall stem : string,
    PyStr.find ".md" (stem ++ ".md") = Some (length stem) ->
    (forall a : article,
        filepath a = stem ++ ".md" -> link_target a = stem) /\
    (forall content : string,
        free_of "#" content = true ->
        extract_title content (stem ++ ".md") = stem).
Proof.
  intros stem H. split.
  - intros a E. unfold link_target. rewrite E.
    now apply replace_one_extension.
  - intros content Hc. unfold extract_title, Re.search.
    rewrite (search_title_without_hash content Hc).
    now apply replace_one_extension.
Qed.

Lemma one_extension_is_stripped_witness :
  (forall a : article,
      filepath a = "./news/en/bbc/20240301_story" ++ ".md" ->
      link_target a = "./news/en/bbc/20240301_story") /\
  (forall content : string,
      free_of "#" content = true ->
      extract_title content ("./news/en/bbc/20240301_story" ++ ".md")
      = "./news/en/bbc/20240301_story").
Proof.
  exact (one_extension_is_stripped "./news/en/bbc/20240301_story" eq_refl).
Defined.

(* ------------------------------------------------------------------ *)
(** ** More on the two fragments *)

Section Fragments.

Lemma join_head (l : list string) :
  Forall (fun x => exists r, x = String PyStr.LF r) l ->
  head_not_digit (PyStr.join PyStr.lf l) = true.
Proof.
  intro H. destruct H as [|x l (r & ->) Hl]; [reflexivity|].
  unfold PyStr.join. destruct l; reflexivity.
Qed.

Lemma shown_items_head v :
  Forall (fun x => exists r, x = String PyStr.LF r) (shown_items v).
Proof.
  destruct v as [[tag l]|]; simpl; [|constructor].
  apply Forall_forall. intros x Hx. apply in_map_iff in Hx as (a & <- & _).
  unfold item_html. eexists. reflexivity.
Qed.

Lemma flat_map_forall {A B : Type} (P : B -> Prop) (f : A -> list B) l :
  (forall a, Forall P (f a)) -> Forall P (flat_map f l).
Proof.
  intro H. induction l as [|a l IH]; simpl; [constructor|].
  apply Forall_app. split; [apply H | exact IH].
Qed.

End Fragments.

(** X17: the text of the news list is empty or begins with a line feed,
    so behind [\1] in the replacement template it never goes on with a
    digit: the only characters of a generated fragment that the template
    reads specially are backslashes. *)
Theorem news_list_never_begins_with_digit :
  forall structure : Structure,
    head_not_digit (fst (generate_news_list_html structure)) = true /\
    (fst (generate_news_list_html structure) = EmptyString \/
     exists rest,
       fst (generate_news_list_html structure) = String PyStr.LF rest).
Proof.
  intro structure. unfold generate_news_list_html.
  pose proof (fold_render_items (PyStr.sorted (map fst structure))
                                [] structure) as H.
  destruct (fold_left render_folder (PyStr.sorted (map fst structure))
                      ([], structure)) as [items s2].
  cbn [fst] in H |- *. rewrite H. cbn [app].
  set (l := flat_map _ _).
  assert (Hl : Forall (fun x => exists r, x = String PyStr.LF r) l)
    by (apply flat_map_forall; intro key; apply shown_items_head).
  split; [now apply join_head|].
  destruct Hl as [|x l2 (r & ->) _]; [now left|].
  right. unfold PyStr.join. destruct l2; simpl; eauto.
Qed.

(** X18: when the showcase region is not found in the document, the
    showcase substitution hands the document back as it is, for every
    fragment without backslash that does not begin with a digit, the empty
    one included. *)
Theorem missing_showcase_region_is_passed_over :
  forall language_showcase_html document : string,
    Re.search showcase_re document = None ->
    free_of Re.BS language_showcase_html = true ->
    head_not_digit language_showcase_html = true ->
    replace_language_showcase language_showcase_html document = Ok document.
Proof.
  intros html document Hs Hf Hd.
  unfold replace_language_showcase, re_sub, Re.sub, backref.
  change (Re.groups showcase_re) with 2.
  destruct html as [|c html].
  - change (Re.parse_template 2 EmptyString) with (Some (@nil Re.tpart)).
    cbn [of_option]. f_equal. now apply ReFacts.sub_from_unmatched.
  - rewrite (RegionFacts.parse_between (String c html) Hf Hd).
    cbn [of_option]. f_equal. now apply ReFacts.sub_from_unmatched.
Qed.

Lemma missing_showcase_region_is_passed_over_witness :
  replace_language_showcase (generate_language_showcase_html ["EN"])
                            "<body><p>no regions</p></body>"
  = Ok "<body><p>no regions</p></body>".
Proof.
  exact (missing_showcase_region_is_passed_over
           (generate_language_showcase_html ["EN"])
           "<body><p>no regions</p></body>" eq_refl eq_refl eq_refl).
Defined.

(* ------------------------------------------------------------------ *)
(** ** Articles of equal date *)

Section Stable.

Lemma compare_same d : String.compare d d = Eq.
Proof.
  induction d as [|c d IH]; simpl; [reflexivity|].
  unfold Ascii.compare. now rewrite N.compare_refl.
Qed.

Lemma insert_by_date_dated d a l :
  dated d (insert_by_date a l) = dated d (a :: l).
Proof.
  unfold dated. induction l as [|b l IH]; [reflexivity|].
  cbn [insert_by_date].
  destruct (String.ltb (date a) (date b)) eqn:E; [|reflexivity].
  cbn [filter] in IH |- *. rewrite IH.
  destruct (String.eqb_spec (date a) d) as [Ea|Ea]; [|reflexivity].
  destruct (String.eqb_spec (date b) d) as [Eb|Eb]; [|reflexivity].
  exfalso. unfold String.ltb in E.
  rewrite Ea, Eb, compare_same in E. discriminate.
Qed.

Lemma sort_articles_dated d l :
  dated d (sort_articles l) = dated d l.
Proof.
  induction l as [|a l IH]; [reflexivity|].
  cbn [sort_articles fold_right].
  change (fold_right insert_by_date [] l) with (sort_articles l).
  rewrite insert_by_date_dated. unfold dated in *. cbn [filter].
  now rewrite IH.
Qed.

End Stable.

(** X19: the sort by date is stable: of every folder the news list shows
    the articles of one and the same date in the order in which they
    stood in the list of the folder. *)
Theorem equal_dates_keep_their_order :
  forall (structure : Structure) (key d : string) (g : group),
    dict_get key structure = Some g ->
    shown structure key
    = Some (language_tag_of g, sort_articles (articles g)) /\
    dated d (sort_articles (articles g)) = dated d (articles g).
Proof.
  intros structure key d g H. unfold shown. rewrite H.
  split; [reflexivity | apply sort_articles_dated].
Qed.

Lemma equal_dates_keep_their_order_witness :
  shown Sample.oldest_first "EN_BBC"
  = Some ("EN - BBC",
          sort_articles [Sample.story "2024-01-01"; Sample.story "2024-02-01"])
  /\
  dated "2024-01-01"
        (sort_articles [Sample.story "2024-01-01"; Sample.story "2024-02-01"])
  = dated "2024-01-01"
          [Sample.story "2024-01-01"; Sample.story "2024-02-01"].
Proof.
  exact (equal_dates_keep_their_order
           Sample.oldest_first "EN_BBC" "2024-01-01"
           {| language_code := "EN"; media_name := Some "BBC";
              folder_path := "en/bbc";
              articles := [Sample.story "2024-01-01";
                           Sample.story "2024-02-01"] |}
           eq_refl).
Defined.

(* ------------------------------------------------------------------ *)
(** ** The form of a date read off a name *)

Section DateForm.













End DateForm.


